(** * honestjs/pipes: argument transformation and validation pipes

    A shallow embedding of the three pipes of the repository

    - [PrimitiveValidationPipe]  (packages/pipes/src/primitive-validation.pipe.ts)
    - [ClassValidationPipe]      (packages/class-validator-pipe/src/class-validation.pipe.ts)
    - [ClassValidatorPipe]       (packages/class-validator-pipe/src/class-validator.pipe.ts)

    together with the part of the JavaScript run time they rely on
    ([typeof], [String], [Number], [isNaN], [trim], [toLowerCase], truthiness,
    promises and exceptions) and the two external capabilities of the class
    pipes ([plainToInstance] of class-transformer, [validate] of
    class-validator), which are parameters of the model. *)

From Stdlib Require Import ZArith List Ascii String Bool.
From Stdlib Require Import Floats.SpecFloat DecimalString.
From stdpp Require Import base gmap strings.

Import ListNotations.
Local Open Scope string_scope.
Local Open Scope Z_scope.

(** ** JavaScript strings

    A string is its sequence of code units; the model covers the strings whose
    code units are below 256, the [ascii] [c] standing for the code unit
    [nat_of_ascii c]. *)
Module JSString.

Definition code (c : ascii) : N := N_of_ascii c.

(** WhiteSpace and LineTerminator code points below 256: TAB, LF, VT, FF,
    CR, SP and NBSP. *)
Definition isWhiteSpace (c : ascii) : bool :=
  let n := code c in
  ((9 <=? n) && (n <=? 13) || (n =? 32) || (n =? 160))%N.

Fixpoint trimStart (s : string) : string :=
  match s with
  | EmptyString => EmptyString
  | String c s' => if isWhiteSpace c then trimStart s' else s
  end.

(** [trimEnd] keeps a character when it is not white space or when something
    remains after it. *)
Fixpoint trimEnd (s : string) : string :=
  match s with
  | EmptyString => EmptyString
  | String c s' =>
      match trimEnd s' with
      | EmptyString => if isWhiteSpace c then EmptyString else String c EmptyString
      | t => String c t
      end
  end.

(** [String.prototype.trim] *)
Definition trim (s : string) : string := trimEnd (trimStart s).

(** Upper-case letters below 256: A-Z, and U+00C0-U+00DE without the
    multiplication sign U+00D7; each is 32 below its lower-case letter. *)
Definition isUpper (c : ascii) : bool :=
  let n := code c in
  ((65 <=? n) && (n <=? 90) || (192 <=? n) && (n <=? 222) && negb (n =? 215))%N.

Definition lowerChar (c : ascii) : ascii :=
  if isUpper c then ascii_of_N (code c + 32) else c.

(** [String.prototype.toLowerCase] *)
Fixpoint toLowerCase (s : string) : string :=
  match s with
  | EmptyString => EmptyString
  | String c s' => String (lowerChar c) (toLowerCase s')
  end.

(** [Array.prototype.join] on an array of strings *)
Fixpoint join (sep : string) (l : list string) : string :=
  match l with
  | [] => ""
  | [x] => x
  | x :: l' => x ++ sep ++ join sep l'
  end.

(** [Array.prototype.includes] on an array of strings *)
Definition includes (l : list string) (s : string) : bool :=
  existsb (String.eqb s) l.

(** [haystack.includes(needle)] on strings *)
Fixpoint contains (needle haystack : string) : bool :=
  String.prefix needle haystack
  || match haystack with
     | EmptyString => false
     | String _ h => contains needle h
     end.

End JSString.

(** ** JavaScript numbers

    A Number is an IEEE 754 binary64 value: a [spec_float] that is
    [valid_binary 53 1024].  [S754_nan] is the single NaN of the language. *)
Module JSNumber.

Definition number : Type := spec_float.

Definition prec : Z := 53.
Definition emax : Z := 1024.

Definition NaN : number := S754_nan.
Definition Infinity : number := S754_infinity false.
Definition zero : number := S754_zero false.

(** The global [isNaN] on a Number. *)
Definition isNaN (n : number) : bool :=
  match n with
  | S754_nan => true
  | _ => false
  end.

(** ToBoolean on a Number: false for +0, -0 and NaN. *)
Definition toBoolean (n : number) : bool :=
  match n with
  | S754_zero _ | S754_nan => false
  | _ => true
  end.

(** The Number nearest to the rational [n / d] ([0 < n], [0 < d]), ties to
    even: the quotient is taken with at least 56 bits and the remainder gives
    the rounding location. *)
Definition round_ratio (sign : bool) (n d : Z) : number :=
  let s := Z.max 0 (56 + Z.log2_up d - Z.log2 n) in
  let '(q, r) := Z.div_eucl (Z.shiftl n s) d in
  binary_round_aux prec emax sign q (- s) (new_location d r).

(** The Number value of the decimal [m * 10 ^ e], [0 <= m]. *)
Definition of_decimal (sign : bool) (m e : Z) : number :=
  if m =? 0 then S754_zero sign
  else if 0 <=? e then round_ratio sign (m * 10 ^ e) 1
  else round_ratio sign m (10 ^ (- e)).

Definition of_Z (z : Z) : number :=
  of_decimal (z <? 0) (Z.abs z) 0.

(** *** StringToNumber *)

Definition digitValue (radix : Z) (c : ascii) : option Z :=
  let n := Z.of_N (N_of_ascii c) in
  let v :=
    if (48 <=? n) && (n <=? 57) then n - 48
    else if (97 <=? n) && (n <=? 102) then n - 87
    else if (65 <=? n) && (n <=? 70) then n - 55
    else radix in
  if v <? radix then Some v else None.

Definition isDecimalDigit (c : ascii) : bool :=
  match digitValue 10 c with
  | Some _ => true
  | None => false
  end.

(** The value of a string made of digits of the radix only. *)
Fixpoint digitsValue (radix acc : Z) (s : string) : option Z :=
  match s with
  | EmptyString => Some acc
  | String c s' =>
      match digitValue radix c with
      | Some v => digitsValue radix (acc * radix + v) s'
      | None => None
      end
  end.

(** A non-empty run of digits. *)
Definition digitsOf (radix : Z) (s : string) : option Z :=
  match s with
  | EmptyString => None
  | _ => digitsValue radix 0 s
  end.

(** The longest prefix of decimal digits, and the rest. *)
Fixpoint spanDigits (s : string) : string * string :=
  match s with
  | EmptyString => (EmptyString, EmptyString)
  | String c s' =>
      if isDecimalDigit c
      then let '(d, r) := spanDigits s' in (String c d, r)
      else (EmptyString, s)
  end.

Variant literal : Type :=
  | LitInfinity
  | LitDecimal (m e : Z).

(** ExponentPart, optional: [e] or [E], a sign, digits. *)
Definition parseExponent (s : string) : option Z :=
  match s with
  | EmptyString => Some 0
  | String c r =>
      if (Ascii.eqb c "e" || Ascii.eqb c "E")%char then
        match r with
        | String "+"%char d => digitsOf 10 d
        | String "-"%char d => option_map Z.opp (digitsOf 10 d)
        | _ => digitsOf 10 r
        end
      else None
  end.

(** StrUnsignedDecimalLiteral *)
Definition parseUnsignedDecimal (s : string) : option literal :=
  if String.eqb s "Infinity" then Some LitInfinity
  else
    let '(ip, r1) := spanDigits s in
    match r1 with
    | String "."%char r =>
        let '(fp, r2) := spanDigits r in
        if String.eqb ip "" && String.eqb fp "" then None
        else
          match digitsValue 10 0 (ip ++ fp), parseExponent r2 with
          | Some m, Some e => Some (LitDecimal m (e - Z.of_nat (String.length fp)))
          | _, _ => None
          end
    | _ =>
        if String.eqb ip "" then None
        else
          match digitsValue 10 0 ip, parseExponent r1 with
          | Some m, Some e => Some (LitDecimal m e)
          | _, _ => None
          end
    end.

(** StrDecimalLiteral after its sign *)
Definition decimalLiteral (sign : bool) (s : string) : number :=
  match parseUnsignedDecimal s with
  | Some LitInfinity => S754_infinity sign
  | Some (LitDecimal m e) => of_decimal sign m e
  | None => NaN
  end.

(** NonDecimalIntegerLiteral after its prefix *)
Definition nonDecimalLiteral (radix : Z) (s : string) : number :=
  match digitsOf radix s with
  | Some v => of_decimal false v 0
  | None => NaN
  end.

(** [Number(str)] on a string: white space is trimmed, the empty string is +0,
    a StringNumericLiteral has its value, anything else is NaN. *)
Definition StringToNumber (str : string) : number :=
  match JSString.trim str with
  | EmptyString => zero
  | String "0"%char (String "b"%char r) | String "0"%char (String "B"%char r) =>
      nonDecimalLiteral 2 r
  | String "0"%char (String "o"%char r) | String "0"%char (String "O"%char r) =>
      nonDecimalLiteral 8 r
  | String "0"%char (String "x"%char r) | String "0"%char (String "X"%char r) =>
      nonDecimalLiteral 16 r
  | String "+"%char r => decimalLiteral false r
  | String "-"%char r => decimalLiteral true r
  | s => decimalLiteral false s
  end.

(** *** Number::toString (radix 10) *)

Definition decimalDigits (z : Z) : string :=
  NilZero.string_of_uint (N.to_uint (Z.to_N z)).

Fixpoint zeros (n : nat) : string :=
  match n with
  | O => EmptyString
  | S n' => String "0"%char (zeros n')
  end.

(** The least [j >= 0] with [num * 10 ^ (j + 1) >= den]. *)
Fixpoint leadingZeros (fuel : nat) (num den : Z) : Z :=
  match fuel with
  | O => 0
  | S fuel' =>
      if den <=? num * 10 then 0
      else 1 + leadingZeros fuel' (num * 10) den
  end.

(** The [n] with [10 ^ (n - 1) <= num / den < 10 ^ n]. *)
Definition magnitude (num den : Z) : Z :=
  if den <=? num
  then Z.of_nat (String.length (decimalDigits (num / den)))
  else - leadingZeros 400 num den.

(** The candidates with [k] digits around [num / den]: the pair [(s, n)] such
    that [s * 10 ^ (n - k)] converts back to [x], the closest one (the even one
    on a tie) when both neighbours do. *)
Definition shortest_at (x : number) (num den n0 k : Z) : option (Z * Z) :=
  let p := k - n0 in
  let '(a, b) := if 0 <=? p then (num * 10 ^ p, den) else (num, den * 10 ^ (- p)) in
  let lo := a / b in
  let hi := lo + 1 in
  let back c := SFeqb (of_decimal false c (n0 - k)) x in
  let out c := if c =? 10 ^ k then (10 ^ (k - 1), n0 + 1) else (c, n0) in
  match back lo, back hi with
  | true, true =>
      match (a - lo * b) ?= (hi * b - a) with
      | Lt => Some (out lo)
      | Gt => Some (out hi)
      | Eq => Some (out (if Z.even lo then lo else hi))
      end
  | true, false => Some (out lo)
  | false, true => Some (out hi)
  | false, false => None
  end.

Fixpoint shortest (fuel : nat) (x : number) (num den n0 k : Z) : Z * Z :=
  match fuel with
  | O => (num * 10 ^ (k - n0) / den, n0)
  | S fuel' =>
      match shortest_at x num den n0 k with
      | Some r => r
      | None => shortest fuel' x num den n0 (k + 1)
      end
  end.

(** The text of a positive finite Number with digits [s] and decimal point
    position [n]. *)
Definition formatDigits (s n : Z) : string :=
  let digits := decimalDigits s in
  let k := Z.of_nat (String.length digits) in
  if (k <=? n) && (n <=? 21) then digits ++ zeros (Z.to_nat (n - k))
  else if (0 <? n) && (n <=? 21) then
    substring 0 (Z.to_nat n) digits ++ "." ++ substring (Z.to_nat n) (Z.to_nat (k - n)) digits
  else if (-6 <? n) && (n <=? 0) then "0." ++ zeros (Z.to_nat (- n)) ++ digits
  else
    let e := n - 1 in
    let exponent := (if e <? 0 then "-" else "+") ++ decimalDigits (Z.abs e) in
    if k =? 1 then digits ++ "e" ++ exponent
    else substring 0 1 digits ++ "." ++ substring 1 (Z.to_nat (k - 1)) digits ++ "e" ++ exponent.

Definition toString (x : number) : string :=
  match x with
  | S754_nan => "NaN"
  | S754_zero _ => "0"
  | S754_infinity s => if s then "-Infinity" else "Infinity"
  | S754_finite sign m e =>
      let '(num, den) := if 0 <=? e then (Zpos m * 2 ^ e, 1) else (Zpos m, 2 ^ (- e)) in
      let '(s, n) := shortest 17 (binary_normalize prec emax (Zpos m) e false) num den (magnitude num den) 1 in
      (if sign then "-" else "") ++ formatDigits s n
  end.


End JSNumber.

(** ** Values, exceptions, promises *)

(** What a [throw] carries.  [BadRequestException] (http-essentials) is the
    classified failure of the pipes; [Error] stands for an instance of any
    other error class ([TypeError], ...), with its [message]. *)
Inductive exception : Type :=
  | BadRequestException (message : string)
  | Error (message : string).

(** [error instanceof BadRequestException] *)
Definition isBadRequestException (error : exception) : bool :=
  match error with
  | BadRequestException _ => true
  | Error _ => false
  end.

(** [error.message] *)
Definition message (error : exception) : string :=
  match error with
  | BadRequestException m | Error m => m
  end.

(** The outcome of a synchronous operation. *)
Inductive completion (A : Type) : Type :=
  | Return (a : A)
  | Throw (error : exception).
Arguments Return {A} a.
Arguments Throw {A} error.

(** The state a promise ends in; [Pending] is a promise that never settles. *)
Inductive settlement (A : Type) : Type :=
  | Fulfilled (a : A)
  | Rejected (reason : exception)
  | Pending.
Arguments Fulfilled {A} a.
Arguments Rejected {A} reason.
Arguments Pending {A}.

(** An object, as far as the pipes can observe it: its identity, whether it is
    callable ([typeof] is then "function"), and what [String(o)] does (the
    conversion runs [Symbol.toPrimitive], [toString] or [valueOf] of the
    object, which may throw). *)
Record JSObject : Type := mkObject {
  identity : positive;
  callable : bool;
  stringValue : completion string
}.

Inductive JSValue : Type :=
  | VUndefined
  | VNull
  | VBoolean (b : bool)
  | VNumber (n : JSNumber.number)
  | VString (s : string)
  | VBigInt (z : Z)
  | VSymbol (description : option string)
  | VObject (o : JSObject).

(** The first argument of [transform]: a value, or a promise of one
    ([value instanceof Promise]). *)
Inductive unknown : Type :=
  | NotPromise (value : JSValue)
  | IsPromise (promise : settlement JSValue).

(** [typeof value] *)
Definition typeof (value : JSValue) : string :=
  match value with
  | VUndefined => "undefined"
  | VNull => "object"
  | VBoolean _ => "boolean"
  | VNumber _ => "number"
  | VString _ => "string"
  | VBigInt _ => "bigint"
  | VSymbol _ => "symbol"
  | VObject o => if callable o then "function" else "object"
  end.

(** [value === null || value === undefined] *)
Definition isNullish (value : JSValue) : bool :=
  match value with
  | VNull | VUndefined => true
  | _ => false
  end.

(** ToBoolean, the truthiness of a value: [!!value], and the test of [if],
    [&&] and [?:]. *)
Definition ToBoolean (value : JSValue) : bool :=
  match value with
  | VUndefined | VNull => false
  | VBoolean b => b
  | VNumber n => JSNumber.toBoolean n
  | VString s => negb (String.eqb s "")
  | VBigInt z => negb (z =? 0)
  | VSymbol _ | VObject _ => true
  end.

(** [String(value)] *)
Definition ToString (value : JSValue) : completion string :=
  match value with
  | VUndefined => Return "undefined"
  | VNull => Return "null"
  | VBoolean b => Return (if b then "true" else "false")
  | VNumber n => Return (JSNumber.toString n)
  | VString s => Return s
  | VBigInt z => Return ((if z <? 0 then "-" else "") ++ JSNumber.decimalDigits (Z.abs z))
  | VSymbol d => Return ("Symbol(" ++ default "" d ++ ")")
  | VObject o => stringValue o
  end.

(** An object used as a record of options: its own enumerable properties.
    Reading a property that is absent gives [undefined]. *)
Definition getProperty (o : gmap string JSValue) (key : string) : JSValue :=
  default VUndefined (o !! key).

(** ** The host framework and the libraries *)

(** The constructors a [metatype] is compared with, and every other class or
    function, told apart by name. *)
Inductive Constructor : Type :=
  | StringConstructor
  | NumberConstructor
  | BooleanConstructor
  | ArrayConstructor
  | ObjectConstructor
  | Class (name : string).

(** [a === b] on constructors *)
Definition Constructor_eqb (a b : Constructor) : bool :=
  match a, b with
  | StringConstructor, StringConstructor
  | NumberConstructor, NumberConstructor
  | BooleanConstructor, BooleanConstructor
  | ArrayConstructor, ArrayConstructor
  | ObjectConstructor, ObjectConstructor => true
  | Class x, Class y => String.eqb x y
  | _, _ => false
  end.

(** [ArgumentMetadata] of honestjs: the kind of argument ("body", "param",
    "query", ...), the declared type when there is one, and the name of the
    argument. *)
Record ArgumentMetadata : Type := mkMetadata {
  type : string;
  metatype : option Constructor;
  data : option string
}.

(** [ValidationError] of class-validator: [constraints] lists the failed
    constraints in the order [Object.values] enumerates them, [None] when the
    property is absent; [children] is empty when the property is absent. *)
#[warnings="-register-all"]
Inductive ValidationError : Type :=
  mkValidationError (property : string)
                    (constraints : option (list (string * string)))
                    (children : list ValidationError).

Definition property (error : ValidationError) : string :=
  match error with mkValidationError p _ _ => p end.
Definition constraints (error : ValidationError) : option (list (string * string)) :=
  match error with mkValidationError _ c _ => c end.
Definition children (error : ValidationError) : list ValidationError :=
  match error with mkValidationError _ _ ch => ch end.

(** The two capabilities the class pipes consume: [plainToInstance] of
    class-transformer, synchronous, and [validate] of class-validator, which
    returns a promise of the violations. *)
Record Host : Type := mkHost {
  plainToInstance : Constructor -> JSValue -> gmap string JSValue -> completion JSValue;
  validate : JSValue -> gmap string JSValue -> settlement (list ValidationError)
}.

(** A call of a capability, with its arguments. *)
Inductive call : Type :=
  | CallPlainToInstance (cls : Constructor) (plain : JSValue) (options : gmap string JSValue)
  | CallValidate (object : JSValue) (options : gmap string JSValue).

(** ** Asynchronous functions

    The body of an [async] function reads the host, records the capability
    calls it makes, and settles the promise it returns. *)
Definition Async (A : Type) : Type := Host -> list call * settlement A.

Definition ret {A} (a : A) : Async A := fun _ => ([], Fulfilled a).

Definition throw {A} (error : exception) : Async A := fun _ => ([], Rejected error).

Definition bind {A B} (m : Async A) (k : A -> Async B) : Async B :=
  fun host =>
    match m host with
    | (calls, Fulfilled a) => let '(calls', r) := k a host in ((calls ++ calls')%list, r)
    | (calls, Rejected e) => (calls, Rejected e)
    | (calls, Pending) => (calls, Pending)
    end.

(** [try { body } catch (error) { handler }] *)
Definition try_catch {A} (body : Async A) (handler : exception -> Async A) : Async A :=
  fun host =>
    match body host with
    | (calls, Rejected e) => let '(calls', r) := handler e host in ((calls ++ calls')%list, r)
    | r => r
    end.

(** [await promise] *)
Definition await {A} (promise : settlement A) : Async A := fun _ => ([], promise).

(** A synchronous step inside an asynchronous body. *)
Definition sync {A} (c : completion A) : Async A :=
  fun _ => ([], match c with Return a => Fulfilled a | Throw e => Rejected e end).

Definition callPlainToInstance (cls : Constructor) (plain : JSValue)
    (options : gmap string JSValue) : Async JSValue :=
  fun host =>
    ([CallPlainToInstance cls plain options],
     match plainToInstance host cls plain options with
     | Return a => Fulfilled a
     | Throw e => Rejected e
     end).

Definition callValidate (object : JSValue) (options : gmap string JSValue)
    : Async (list ValidationError) :=
  fun host => ([CallValidate object options], validate host object options).

Declare Scope async_scope.
Delimit Scope async_scope with async.
Notation "x <- m ;; k" := (bind m (fun x => k))
  (at level 90, m at next level, right associativity) : async_scope.

(** The shared first step of the three [transform] methods: a promise is
    awaited, and its rejection is reported as invalid request data. *)
Definition resolve (value : unknown) : Async JSValue :=
  match value with
  | IsPromise promise =>
      try_catch (await promise)
                (fun _ => throw (BadRequestException "Invalid request data"))
  | NotPromise v => ret v
  end.

(** ** PrimitiveValidationPipe *)
Module PrimitiveValidationPipe.

(** The instance: its only field is the options object the constructor
    received. *)
Record pipe : Type := mkPipe {
  options : gmap string JSValue
}.

(** The default value of the constructor's parameter. *)
Definition defaultOptions : gmap string JSValue :=
  <["transformBoolean" := VBoolean true]>
    (<["transformNumber" := VBoolean true]>
       (<["transformString" := VBoolean true]> ∅)).

(** [new PrimitiveValidationPipe(options)]: the parameter takes its default
    when the argument is left out, and is stored as it is otherwise. *)
Definition constructor (options : option (gmap string JSValue)) : pipe :=
  mkPipe (default defaultOptions options).

Definition transformValue (this : pipe) (value : JSValue) (metatype : Constructor)
    : completion JSValue :=
  (* String validation and transformation *)
  if Constructor_eqb metatype StringConstructor
     && ToBoolean (getProperty (options this) "transformString")
  then
    match value with
    | VString _ => Return value
    | VNull | VUndefined => Return value
    | _ =>
        match ToString value with
        | Return stringValue => Return (VString stringValue)
        | Throw error => Throw error
        end
    end
  (* Number validation and transformation *)
  else if Constructor_eqb metatype NumberConstructor
          && ToBoolean (getProperty (options this) "transformNumber")
  then
    match value with
    | VNumber _ => Return value
    | VString s =>
        let parsedValue := JSNumber.StringToNumber s in
        if JSNumber.isNaN parsedValue
        then Throw (BadRequestException ("Cannot convert '" ++ s ++ "' to a number"))
        else Return (VNumber parsedValue)
    | _ => Throw (BadRequestException ("Cannot convert " ++ typeof value ++ " to a number"))
    end
  (* Boolean validation and transformation *)
  else if Constructor_eqb metatype BooleanConstructor
          && ToBoolean (getProperty (options this) "transformBoolean")
  then
    match value with
    | VBoolean _ => Return value
    | VString s =>
        let normalizedValue := JSString.trim (JSString.toLowerCase s) in
        if JSString.includes ["true"; "yes"; "1"; "on"] normalizedValue
        then Return (VBoolean true)
        else if JSString.includes ["false"; "no"; "0"; "off"] normalizedValue
        then Return (VBoolean false)
        else Throw (BadRequestException ("Cannot convert string '" ++ s ++ "' to a boolean"))
    | VNumber _ => Return (VBoolean (ToBoolean value))
    | _ => Throw (BadRequestException ("Cannot convert " ++ typeof value ++ " to a boolean"))
    end
  (* For types that are not primitives, return as is *)
  else Return value.

Definition transform (this : pipe) (value : unknown) (metadata : ArgumentMetadata)
    : Async JSValue :=
  (value <- resolve value ;;
   if isNullish value then ret value
   else
     match metatype metadata with
     | None => ret value
     | Some metatype =>
         try_catch
           (sync (transformValue this value metatype))
           (fun error =>
              if isBadRequestException error then throw error
              else throw (BadRequestException
                            ("Failed to validate " ++ type metadata ++ ": " ++ message error)))
     end)%async.

End PrimitiveValidationPipe.

(** ** ClassValidationPipe *)
Module ClassValidationPipe.

Record pipe : Type := mkPipe {
  validatorOptions : gmap string JSValue;
  transformOptions : gmap string JSValue
}.

(** [new ClassValidationPipe(validatorOptions, transformOptions)]: each
    parameter defaults to the empty object, and each field is a new object
    holding the defaults overridden by the properties of the argument. *)
Definition constructor (validatorOptions transformOptions : option (gmap string JSValue))
    : pipe :=
  mkPipe
    (default ∅ validatorOptions
       ∪ <["whitelist" := VBoolean true]> (<["forbidNonWhitelisted" := VBoolean false]> ∅))
    (default ∅ transformOptions
       ∪ <["enableImplicitConversion" := VBoolean true]> ∅).

(** The callback of [errors.forEach] in [buildErrorMessages]: the messages
    collected so far, extended with those of [error] and of its children. *)
Fixpoint forEachError (parentProperty : option string) (messages : list string)
    (error : ValidationError) {struct error} : list string :=
  match error with
  | mkValidationError property constraints children =>
      (* [parentProperty ? ... : ...]: undefined and the empty string are falsy *)
      let propertyPath :=
        match parentProperty with
        | Some parent =>
            if ToBoolean (VString parent) then parent ++ "." ++ property else property
        | None => property
        end in
      let messages :=
        match constraints with
        | Some constraints =>
            let constraintMessages := JSString.join ", " (map snd constraints) in
            (messages ++ [(propertyPath ++ ": " ++ constraintMessages)%string])%list
        | None => messages
        end in
      match children with
      | [] => messages
      | _ => (messages ++ fold_left (forEachError (Some propertyPath)) children [])%list
      end
  end.

Definition buildErrorMessages (errors : list ValidationError)
    (parentProperty : option string) : list string :=
  fold_left (forEachError parentProperty) errors [].

Definition toValidate (metatype : Constructor) : bool :=
  let types := [StringConstructor; BooleanConstructor; NumberConstructor;
                ArrayConstructor; ObjectConstructor] in
  negb (existsb (Constructor_eqb metatype) types).

Definition transform (this : pipe) (value : unknown) (metadata : ArgumentMetadata)
    : Async JSValue :=
  (resolvedValue <- resolve value ;;
   match metatype metadata with
   | None => ret resolvedValue
   | Some metatype =>
       if negb (toValidate metatype) then ret resolvedValue
       else if isNullish resolvedValue then ret resolvedValue
       else
         try_catch
           (object <- callPlainToInstance metatype resolvedValue (transformOptions this) ;;
            errors <- callValidate object (validatorOptions this) ;;
            if (0 <? length errors)%nat
            then throw (BadRequestException
                          (JSString.join "; " (buildErrorMessages errors None)))
            else ret object)
           (fun error =>
              if isBadRequestException error then throw error
              else throw (BadRequestException "Validation failed"))
   end)%async.

End ClassValidationPipe.

(** ** ClassValidatorPipe *)
Module ClassValidatorPipe.

Record pipe : Type := mkPipe {
  validatorOptions : gmap string JSValue;
  transformOptions : gmap string JSValue
}.

(** [new ClassValidatorPipe(validatorOptions, transformOptions)]: each
    parameter defaults to the empty object, and each field is a new object
    holding the defaults overridden by the properties of the argument. *)
Definition constructor (validatorOptions transformOptions : option (gmap string JSValue))
    : pipe :=
  mkPipe
    (default ∅ validatorOptions
       ∪ <["whitelist" := VBoolean true]> (<["forbidNonWhitelisted" := VBoolean false]> ∅))
    (default ∅ transformOptions
       ∪ <["enableImplicitConversion" := VBoolean true]> ∅).

(** The callback of [errors.forEach] in [buildErrorMessages]: the messages
    collected so far, extended with those of [error] and of its children. *)
Fixpoint forEachError (parentProperty : option string) (messages : list string)
    (error : ValidationError) {struct error} : list string :=
  match error with
  | mkValidationError property constraints children =>
      (* [parentProperty ? ... : ...]: undefined and the empty string are falsy *)
      let propertyPath :=
        match parentProperty with
        | Some parent =>
            if ToBoolean (VString parent) then parent ++ "." ++ property else property
        | None => property
        end in
      let messages :=
        match constraints with
        | Some constraints =>
            let constraintMessages := JSString.join ", " (map snd constraints) in
            (messages ++ [(propertyPath ++ ": " ++ constraintMessages)%string])%list
        | None => messages
        end in
      match children with
      | [] => messages
      | _ => (messages ++ fold_left (forEachError (Some propertyPath)) children [])%list
      end
  end.

Definition buildErrorMessages (errors : list ValidationError)
    (parentProperty : option string) : list string :=
  fold_left (forEachError parentProperty) errors [].

Definition toValidate (metatype : Constructor) : bool :=
  let types := [StringConstructor; BooleanConstructor; NumberConstructor;
                ArrayConstructor; ObjectConstructor] in
  negb (existsb (Constructor_eqb metatype) types).

Definition transform (this : pipe) (value : unknown) (metadata : ArgumentMetadata)
    : Async JSValue :=
  (resolvedValue <- resolve value ;;
   match metatype metadata with
   | None => ret resolvedValue
   | Some metatype =>
       if negb (toValidate metatype) then ret resolvedValue
       else if isNullish resolvedValue then ret resolvedValue
       else
         try_catch
           (object <- callPlainToInstance metatype resolvedValue (transformOptions this) ;;
            errors <- callValidate object (validatorOptions this) ;;
            if (0 <? length errors)%nat
            then throw (BadRequestException
                          (JSString.join "; " (buildErrorMessages errors None)))
            else ret object)
           (fun error =>
              if isBadRequestException error then throw error
              else throw (BadRequestException "Validation failed"))
   end)%async.

End ClassValidatorPipe.

(** ** The interface of a pipe

    [IPipe] of honestjs: the three classes implement it. *)
Class IPipe (P : Type) : Type :=
  transform : P -> unknown -> ArgumentMetadata -> Async JSValue.

#[export] Instance PrimitiveValidationPipe_IPipe : IPipe PrimitiveValidationPipe.pipe :=
  PrimitiveValidationPipe.transform.

#[export] Instance ClassValidationPipe_IPipe : IPipe ClassValidationPipe.pipe :=
  ClassValidationPipe.transform.

#[export] Instance ClassValidatorPipe_IPipe : IPipe ClassValidatorPipe.pipe :=
  ClassValidatorPipe.transform.

(** ** Notions of the specification *)

(** The value an argument resolves to: itself, or the value its promise is
    fulfilled with. *)
Definition resolved (value : unknown) : option JSValue :=
  match value with
  | NotPromise v => Some v
  | IsPromise (Fulfilled v) => Some v
  | IsPromise _ => None
  end.

(** The built-in kinds that carry no field rules. *)
Definition builtinKinds : list Constructor :=
  [StringConstructor; NumberConstructor; BooleanConstructor;
   ArrayConstructor; ObjectConstructor].

(** A descriptor that declares no metatype, or a built-in kind. *)
Definition declaresNoSchema (metadata : ArgumentMetadata) : Prop :=
  match metatype metadata with
  | None => True
  | Some metatype => In metatype builtinKinds
  end.

(** The texts the boolean target accepts, once normalized. *)
Definition truthyTexts : list string := ["true"; "yes"; "1"; "on"].
Definition falsyTexts : list string := ["false"; "no"; "0"; "off"].

(** Normalization in the order the specification gives: trimmed, then
    lower-cased. *)
Definition normalized (s : string) : string :=
  JSString.toLowerCase (JSString.trim s).

(** The flattening of a violation tree as the specification words it:
    depth-first, a node before its children, one segment
    "<propertyPath>: <joined constraint messages>" for each node that carries
    constraints, the path being made from the property names of the ancestors
    and of the node by [pathOf]. *)
Section Flattening.

Variable pathOf : list string -> string.

Fixpoint flattenError (ancestors : list string) (error : ValidationError)
    {struct error} : list string :=
  match error with
  | mkValidationError property constraints children =>
      let names := (ancestors ++ [property])%list in
      let segment :=
        match constraints with
        | Some constraints =>
            [(pathOf names ++ ": " ++ JSString.join ", " (map snd constraints))%string]
        | None => []
        end in
      (segment ++ flat_map (flattenError names) children)%list
  end.

Definition flattenErrors (errors : list ValidationError) : list string :=
  flat_map (flattenError []) errors.

End Flattening.

(** The path as the specification words it: the names joined with ".". *)
Definition joinedPath (names : list string) : string :=
  JSString.join "." names.

(** Leading empty names removed. *)
Fixpoint dropEmpty (names : list string) : list string :=
  match names with
  | [] => []
  | name :: names' => if String.eqb name "" then dropEmpty names' else names
  end.

(** The path the code builds: an empty parent path adds no prefix, so the
    names are joined with "." once the leading empty ones are dropped. *)
Definition truthyPath (names : list string) : string :=
  JSString.join "." (dropEmpty names).

(** Two hosts give the same answer to a call. *)
Definition sameAnswer (host1 host2 : Host) (c : call) : Prop :=
  match c with
  | CallPlainToInstance cls plain options =>
      plainToInstance host1 cls plain options = plainToInstance host2 cls plain options
  | CallValidate object options =>
      validate host1 object options = validate host2 object options
  end.

(** The first of the names is not the empty string. *)
Definition headNotEmpty (names : list string) : Prop :=
  match names with
  | [] => False
  | name :: _ => name <> ""
  end.

(** What the [catch] of the class pipes raises for a failure of the [try]. *)
Definition rethrown (error : exception) : exception :=
  if isBadRequestException error then error
  else BadRequestException "Validation failed".

(** ** Sample inputs *)

Definition paramOf (metatype : Constructor) : ArgumentMetadata :=
  mkMetadata "param" (Some metatype) None.

Definition bodyOf (metatype : Constructor) : ArgumentMetadata :=
  mkMetadata "body" (Some metatype) None.

(** A plain object [{}]. *)
Definition plainObject : JSValue :=
  VObject (mkObject 1 false (Return "[object Object]")).

(** [Object.create(null)]: [String] cannot convert it. *)
Definition bareObject : JSValue :=
  VObject (mkObject 2 false (Throw (Error "Cannot convert object to primitive value"))).

(** A host whose capabilities accept everything: the plain value is the
    instance, and no rule is violated. *)
Definition acceptingHost : Host :=
  mkHost (fun _ plain _ => Return plain) (fun _ _ => Fulfilled []).

(** A host that reports the given violations. *)
Definition reportingHost (errors : list ValidationError) : Host :=
  mkHost (fun _ plain _ => Return plain) (fun _ _ => Fulfilled errors).

(** A host whose structural transform throws the given exception. *)
Definition throwingHost (error : exception) : Host :=
  mkHost (fun _ _ _ => Throw error) (fun _ _ => Fulfilled []).

(** A host whose validation rejects with the given exception. *)
Definition rejectingHost (error : exception) : Host :=
  mkHost (fun _ plain _ => Return plain) (fun _ _ => Rejected error).

(** A host that reports the given violations for the class [CreateUserDto],
    and knows no other class. *)
Definition strictHost (errors : list ValidationError) : Host :=
  mkHost (fun cls plain _ =>
            if Constructor_eqb cls (Class "CreateUserDto") then Return plain
            else Throw (Error "unknown class"))
         (fun _ _ => Fulfilled errors).

(** The violations of [{ name: "A", email: "bad" }] against a schema that
    requires a name of two characters and an e-mail address. *)
Definition userViolations : list ValidationError :=
  [mkValidationError "name"
     (Some [("minLength", "name must be longer than or equal to 2 characters")]) [];
   mkValidationError "email" (Some [("isEmail", "email must be an email")]) []].

(** A violation below a property: the parent carries no constraint. *)
Definition nestedViolations : list ValidationError :=
  [mkValidationError "address" None
     [mkValidationError "street" (Some [("isString", "street must be a string")]) []]].

(** A violation below a property whose name is the empty string. *)
Definition emptyNameViolations : list ValidationError :=
  [mkValidationError "" None
     [mkValidationError "x" (Some [("isString", "x must be a string")]) []]].

(** ** Further notions *)

(** The switch that governs a target of the primitive pipe; the other
    constructors have none. *)
Definition switchOf (metatype : Constructor) : option string :=
  match metatype with
  | StringConstructor => Some "transformString"
  | NumberConstructor => Some "transformNumber"
  | BooleanConstructor => Some "transformBoolean"
  | _ => None
  end.

(** What [typeof] gives for a value of the target. *)
Definition typeName (metatype : Constructor) : string :=
  match metatype with
  | StringConstructor => "string"
  | NumberConstructor => "number"
  | BooleanConstructor => "boolean"
  | ArrayConstructor | ObjectConstructor | Class _ => "object"
  end.

(** The number of violations of a tree that carry constraints. *)
Fixpoint constrained (error : ValidationError) : nat :=
  match error with
  | mkValidationError _ constraints children =>
      ((match constraints with Some _ => 1 | None => 0 end)
       + list_sum (map constrained children))%nat
  end.

Definition constrainedCount (errors : list ValidationError) : nat :=
  list_sum (map constrained errors).

(** The defaults the constructors of the class pipes spread the argument
    over. *)
Definition validatorDefault (key : string) : option JSValue :=
  if String.eqb key "whitelist" then Some (VBoolean true)
  else if String.eqb key "forbidNonWhitelisted" then Some (VBoolean false)
  else None.

Definition transformDefault (key : string) : option JSValue :=
  if String.eqb key "enableImplicitConversion" then Some (VBoolean true)
  else None.

(** ** Further sample inputs *)

(** An instance of a class, distinct from [plainObject]. *)
Definition instanceObject : JSValue :=
  VObject (mkObject 3 false (Return "[object Object]")).

(** A host whose structural transform builds [instanceObject], and whose
    validation reports the given violations. *)
Definition instantiatingHost (errors : list ValidationError) : Host :=
  mkHost (fun _ _ _ => Return instanceObject) (fun _ _ => Fulfilled errors).

(** Violations that carry no constraint at all. *)
Definition unconstrainedViolations : list ValidationError :=
  [mkValidationError "address" None [mkValidationError "street" None []]].

(** Options whose switches are truthy without being [true], with a property
    the pipe does not know. *)
Definition truthyOptions : gmap string JSValue :=
  <["transformBoolean" := VNumber (JSNumber.of_Z 1)]>
    (<["transformNumber" := VString "yes"]>
       (<["transformString" := plainObject]>
          (<["strict" := VBoolean false]> ∅))).

(** Options that turn the three switches off. *)
Definition strictOptions : gmap string JSValue :=
  <["transformBoolean" := VBoolean false]>
    (<["transformNumber" := VBoolean false]>
       (<["transformString" := VBoolean false]> ∅)).

(** ** The options objects in the store

    An options object is a JavaScript object: whoever holds a reference to it
    can write to it.  [PrimitiveValidationPipe] keeps in [this.options] the
    reference it is given; the class pipes keep references to two objects
    their constructor creates.  The store holds the options objects, a
    location being an index in it; the capabilities are taken not to write to
    the options objects they receive. *)
Module Store.

Abbreviation loc := nat (only parsing).

Abbreviation heap := (list (gmap string JSValue)) (only parsing).

(** A computation on the store. *)
Definition State (A : Type) : Type := heap -> heap * A.

Definition pure {A} (a : A) : State A := fun h => (h, a).

Definition andThen {A B} (m : State A) (k : A -> State B) : State B :=
  fun h => let '(h', a) := m h in k a h'.

(** An object literal: a new object. *)
Definition alloc (o : gmap string JSValue) : State loc :=
  fun h => ((h ++ [o])%list, length h).

(** The properties of the object at a location. *)
Definition deref (l : loc) : State (gmap string JSValue) :=
  fun h => (h, default ∅ (h !! l)).

(** [o[key] = v], by whoever holds the reference. *)
Definition assign (l : loc) (key : string) (v : JSValue) : State unit :=
  fun h => (alter (insert key v) l h, tt).

(** The properties an object has in a store. *)
Definition contents (h : heap) (l : loc) : gmap string JSValue :=
  snd (deref l h).

(** A reference held by a caller points into the store. *)
Definition allocated (h : heap) (reference : option loc) : Prop :=
  match reference with
  | Some l => l < length h
  | None => True
  end%nat.

(** The instance of [PrimitiveValidationPipe]: [this.options] is a
    reference. *)
Record primitivePipe : Type := mkPrimitivePipe {
  options : loc
}.

(** [new PrimitiveValidationPipe(options)]: the default of the parameter is an
    object literal, evaluated when the argument is left out; the reference is
    stored as it is. *)
Definition newPrimitivePipe (options : option loc) : State primitivePipe :=
  match options with
  | Some l => pure (mkPrimitivePipe l)
  | None => andThen (alloc PrimitiveValidationPipe.defaultOptions)
                    (fun l => pure (mkPrimitivePipe l))
  end.

(** [transform] of the primitive pipe: [this.options] is read when the
    switches are tested, that is, once the argument is resolved. *)
Definition primitiveTransform (this : primitivePipe) (value : unknown)
    (metadata : ArgumentMetadata) (host : Host)
    : State (list call * settlement JSValue) :=
  andThen (deref (options this))
          (fun current =>
             pure (PrimitiveValidationPipe.transform
                     (PrimitiveValidationPipe.mkPipe current) value metadata host)).

(** The instance of [ClassValidationPipe]: two references. *)
Record classPipe : Type := mkClassPipe {
  validatorOptions : loc;
  transformOptions : loc
}.

(** A parameter with the default [{}]. *)
Definition orEmptyObject (argument : option loc) : State loc :=
  match argument with
  | Some l => pure l
  | None => alloc ∅
  end.

(** [new ClassValidationPipe(validatorOptions, transformOptions)]: each field
    is a new object, the defaults overridden by the properties the argument
    has at that time. *)
Definition newClassPipe (validatorOptions transformOptions : option loc)
    : State classPipe :=
  andThen (orEmptyObject validatorOptions) (fun given =>
  andThen (orEmptyObject transformOptions) (fun given' =>
  andThen (deref given) (fun properties =>
  andThen (alloc (properties
                  ∪ <["whitelist" := VBoolean true]>
                      (<["forbidNonWhitelisted" := VBoolean false]> ∅))) (fun l =>
  andThen (deref given') (fun properties' =>
  andThen (alloc (properties' ∪ <["enableImplicitConversion" := VBoolean true]> ∅))
          (fun l' => pure (mkClassPipe l l'))))))).

(** [transform] of the class pipe: the two objects are read when they are
    passed to the capabilities. *)
Definition classTransform (this : classPipe) (value : unknown)
    (metadata : ArgumentMetadata) (host : Host)
    : State (list call * settlement JSValue) :=
  andThen (deref (transformOptions this)) (fun current' =>
  andThen (deref (validatorOptions this)) (fun current =>
  pure (ClassValidationPipe.transform
          (ClassValidationPipe.mkPipe current current') value metadata host))).

(** What the rest of the program does between two steps of a pipe: a
    sequence of writes. *)
Definition write : Type := loc * string * JSValue.

Definition target (w : write) : loc := fst (fst w).

Definition perform (writes : list write) (h : heap) : heap :=
  fold_left (fun h w => fst (assign (target w) (snd (fst w)) (snd w) h)) writes h.

End Store.

(** The properties of the options a constructor is given, when it is built:
    none when the argument is left out. *)
Definition givenOptions (h : Store.heap) (argument : option Store.loc)
    : option (gmap string JSValue) :=
  option_map (Store.contents h) argument.

(** A store with one options object, which turns the three switches on. *)
Definition callerStore : Store.heap := [PrimitiveValidationPipe.defaultOptions].

(** ** The violations that carry constraints *)

(** The violations of a tree that carry constraints, depth-first and a parent
    before its children, each with the property names from the top down to it
    and with its constraints. *)
Fixpoint constrainedBelow (ancestors : list string) (error : ValidationError)
    {struct error} : list (list string * list (string * string)) :=
  match error with
  | mkValidationError property constraints children =>
      let names := (ancestors ++ [property])%list in
      ((match constraints with
        | Some constraints => [(names, constraints)]
        | None => []
        end)
       ++ flat_map (constrainedBelow names) children)%list
  end.

Definition constrainedViolations (errors : list ValidationError)
    : list (list string * list (string * string)) :=
  flat_map (constrainedBelow []) errors.

(** The message of a violation that carries constraints. *)
Definition segmentOf (violation : list string * list (string * string)) : string :=
  truthyPath (fst violation) ++ ": " ++ JSString.join ", " (map snd (snd violation)).

(** * Properties *)

Ltac async :=
  unfold try_catch, bind, sync, ret, throw, await, callPlainToInstance, callValidate.

(** ** The run time *)

Example trim_example : JSString.trim "  Yes	 " = "Yes".
Proof. reflexivity. Qed.

Example toLowerCase_example : JSString.toLowerCase " TrUe1" = " true1".
Proof. reflexivity. Qed.

Example join_example : JSString.join "; " ["a"; "b"; "c"] = "a; b; c".
Proof. reflexivity. Qed.

Example StringToNumber_examples :
  map JSNumber.StringToNumber ["42"; "-0"; "0x1F"; " 12.5 "; "1e400"; "12abc"; "."]
  = [S754_finite false 5910974510923776 (-47); S754_zero true;
     S754_finite false 8725724278030336 (-48);
     S754_finite false 7036874417766400 (-49);
     S754_infinity false; S754_nan; S754_nan].
Proof. vm_compute. reflexivity. Qed.

Example Number_toString_examples :
  map (fun s => JSNumber.toString (JSNumber.StringToNumber s))
      ["123"; "12.50"; "0.1"; "1e21"; "1e-7"; "-0"; "5e-324"; "0.30000000000000004"]
  = ["123"; "12.5"; "0.1"; "1e+21"; "1e-7"; "0"; "5e-324"; "0.30000000000000004"].
Proof. vm_compute. reflexivity. Qed.

(** ** Asynchronous steps *)

Lemma resolve_resolved (value : unknown) (v : JSValue) (host : Host) :
  resolved value = Some v -> resolve value host = ([], Fulfilled v).
Proof.
  destruct value as [w | [w | e | ]]; simpl; intros H; inversion H; reflexivity.
Qed.

Lemma resolve_rejected (reason : exception) (host : Host) :
  resolve (IsPromise (Rejected reason)) host
  = ([], Rejected (BadRequestException "Invalid request data")).
Proof. reflexivity. Qed.

Lemma resolve_pending (host : Host) :
  resolve (IsPromise Pending) host = ([], Pending).
Proof. reflexivity. Qed.

(** [resolve] makes no call, whatever the argument. *)
Lemma resolve_no_call (value : unknown) (host : Host) :
  fst (resolve value host) = [].
Proof. destruct value as [w | [w | e | ]]; reflexivity. Qed.

Lemma bind_resolved {B} (value : unknown) (v : JSValue) (k : JSValue -> Async B)
    (host : Host) :
  resolved value = Some v -> bind (resolve value) k host = k v host.
Proof.
  intros H. unfold bind. rewrite (resolve_resolved _ _ _ H).
  destruct (k v host) as [calls r]. reflexivity.
Qed.

(** Every pipe of the repository reports the rejection of its argument as
    invalid request data, whatever the reason, and never settles on an
    argument that never settles. *)
Lemma unresolved_argument
    (pp : PrimitiveValidationPipe.pipe) (cp : ClassValidationPipe.pipe)
    (cp' : ClassValidatorPipe.pipe) (metadata : ArgumentMetadata) (host : Host) :
  (forall reason,
      transform pp (IsPromise (Rejected reason)) metadata host
      = ([], Rejected (BadRequestException "Invalid request data"))
      /\ transform cp (IsPromise (Rejected reason)) metadata host
         = ([], Rejected (BadRequestException "Invalid request data"))
      /\ transform cp' (IsPromise (Rejected reason)) metadata host
         = ([], Rejected (BadRequestException "Invalid request data")))
  /\ transform pp (IsPromise Pending) metadata host = ([], Pending)
  /\ transform cp (IsPromise Pending) metadata host = ([], Pending)
  /\ transform cp' (IsPromise Pending) metadata host = ([], Pending).
Proof. repeat split; reflexivity. Qed.

(** ** Short circuits *)

Lemma primitive_transform_nullish
    (pp : PrimitiveValidationPipe.pipe) (value : unknown) (v : JSValue)
    (metadata : ArgumentMetadata) (host : Host) :
  resolved value = Some v ->
  isNullish v = true ->
  PrimitiveValidationPipe.transform pp value metadata host = ([], Fulfilled v).
Proof.
  intros Hres Hnull.
  unfold PrimitiveValidationPipe.transform. rewrite (bind_resolved _ _ _ _ Hres).
  rewrite Hnull. reflexivity.
Qed.

(** C8: a resolved value that is [null] or [undefined] is returned unchanged
    by the three pipes, with no call of a capability and no error, whatever
    the descriptor and the options of the instance. *)
Theorem nullish_short_circuit
    (pp : PrimitiveValidationPipe.pipe) (cp : ClassValidationPipe.pipe)
    (cp' : ClassValidatorPipe.pipe) (value : unknown) (v : JSValue)
    (metadata : ArgumentMetadata) (host : Host) :
  resolved value = Some v ->
  isNullish v = true ->
  PrimitiveValidationPipe.transform pp value metadata host = ([], Fulfilled v)
  /\ ClassValidationPipe.transform cp value metadata host = ([], Fulfilled v)
  /\ ClassValidatorPipe.transform cp' value metadata host = ([], Fulfilled v).
Proof.
  intros Hres Hnull. repeat split.
  - now apply primitive_transform_nullish.
  - unfold ClassValidationPipe.transform. rewrite (bind_resolved _ _ _ _ Hres).
    destruct (metatype metadata) as [mt | ]; [ | reflexivity].
    destruct (ClassValidationPipe.toValidate mt); simpl; [ | reflexivity].
    rewrite Hnull. reflexivity.
  - unfold ClassValidatorPipe.transform. rewrite (bind_resolved _ _ _ _ Hres).
    destruct (metatype metadata) as [mt | ]; [ | reflexivity].
    destruct (ClassValidatorPipe.toValidate mt); simpl; [ | reflexivity].
    rewrite Hnull. reflexivity.
Qed.

Lemma nullish_short_circuit_witness :
  PrimitiveValidationPipe.transform (PrimitiveValidationPipe.constructor None)
    (IsPromise (Fulfilled VNull)) (paramOf NumberConstructor) acceptingHost
  = ([], Fulfilled VNull)
  /\ ClassValidationPipe.transform (ClassValidationPipe.constructor None None)
       (IsPromise (Fulfilled VNull)) (paramOf NumberConstructor) acceptingHost
     = ([], Fulfilled VNull)
  /\ ClassValidatorPipe.transform (ClassValidatorPipe.constructor None None)
       (IsPromise (Fulfilled VNull)) (paramOf NumberConstructor) acceptingHost
     = ([], Fulfilled VNull).
Proof.
  apply (nullish_short_circuit _ _ _ (IsPromise (Fulfilled VNull)) VNull);
    reflexivity.
Defined.

(** [toValidate] is false exactly on the built-in kinds. *)
Lemma toValidate_builtin (metatype : Constructor) :
  ClassValidationPipe.toValidate metatype = false <-> In metatype builtinKinds.
Proof.
  unfold builtinKinds. split.
  - destruct metatype; simpl; intros H; try discriminate; auto 10.
  - simpl. intros [<- | [<- | [<- | [<- | [<- | []]]]]]; reflexivity.
Qed.

Lemma toValidate_same (metatype : Constructor) :
  ClassValidatorPipe.toValidate metatype = ClassValidationPipe.toValidate metatype.
Proof. reflexivity. Qed.

(** C7: when the descriptor declares no metatype, or one of String, Number,
    Boolean, Array and Object, the class pipes return the resolved value
    unchanged, call no capability and raise no error. *)
Theorem builtin_kinds_skip_validation
    (cp : ClassValidationPipe.pipe) (cp' : ClassValidatorPipe.pipe)
    (value : unknown) (v : JSValue) (metadata : ArgumentMetadata) (host : Host) :
  resolved value = Some v ->
  declaresNoSchema metadata ->
  ClassValidationPipe.transform cp value metadata host = ([], Fulfilled v)
  /\ ClassValidatorPipe.transform cp' value metadata host = ([], Fulfilled v).
Proof.
  intros Hres Hskip. unfold declaresNoSchema in Hskip. split.
  - unfold ClassValidationPipe.transform. rewrite (bind_resolved _ _ _ _ Hres).
    destruct (metatype metadata) as [mt | ]; [ | reflexivity].
    apply toValidate_builtin in Hskip. rewrite Hskip. reflexivity.
  - unfold ClassValidatorPipe.transform. rewrite (bind_resolved _ _ _ _ Hres).
    destruct (metatype metadata) as [mt | ]; [ | reflexivity].
    apply toValidate_builtin in Hskip. rewrite toValidate_same, Hskip. reflexivity.
Qed.

Lemma builtin_kinds_skip_validation_witness :
  ClassValidationPipe.transform (ClassValidationPipe.constructor None None)
    (NotPromise plainObject) (bodyOf ArrayConstructor) (throwingHost (Error "unused"))
  = ([], Fulfilled plainObject)
  /\ ClassValidatorPipe.transform (ClassValidatorPipe.constructor None None)
       (NotPromise plainObject) (bodyOf ArrayConstructor) (throwingHost (Error "unused"))
     = ([], Fulfilled plainObject).
Proof.
  apply (builtin_kinds_skip_validation _ _ (NotPromise plainObject) plainObject).
  - reflexivity.
  - unfold declaresNoSchema, builtinKinds. simpl. auto 10.
Defined.

(** ** The class pipes *)

(** The two classes run the same steps on the same fields. *)
Lemma class_pipes_same_fields
    (validatorOptions transformOptions : gmap string JSValue)
    (value : unknown) (metadata : ArgumentMetadata) (host : Host) :
  ClassValidatorPipe.transform
    (ClassValidatorPipe.mkPipe validatorOptions transformOptions) value metadata host
  = ClassValidationPipe.transform
      (ClassValidationPipe.mkPipe validatorOptions transformOptions) value metadata host.
Proof. reflexivity. Qed.

Lemma class_constructors_same_fields
    (validatorOptions transformOptions : option (gmap string JSValue)) :
  ClassValidatorPipe.validatorOptions
    (ClassValidatorPipe.constructor validatorOptions transformOptions)
  = ClassValidationPipe.validatorOptions
      (ClassValidationPipe.constructor validatorOptions transformOptions)
  /\ ClassValidatorPipe.transformOptions
       (ClassValidatorPipe.constructor validatorOptions transformOptions)
     = ClassValidationPipe.transformOptions
         (ClassValidationPipe.constructor validatorOptions transformOptions).
Proof. split; reflexivity. Qed.

(** C10: built from the same pair of options, [ClassValidatorPipe] and
    [ClassValidationPipe] give the same result on every argument and
    descriptor: the same calls, and the same value or the same failure. *)
Theorem class_pipes_equivalent
    (validatorOptions transformOptions : option (gmap string JSValue))
    (value : unknown) (metadata : ArgumentMetadata) (host : Host) :
  ClassValidatorPipe.transform
    (ClassValidatorPipe.constructor validatorOptions transformOptions)
    value metadata host
  = ClassValidationPipe.transform
      (ClassValidationPipe.constructor validatorOptions transformOptions)
      value metadata host.
Proof.
  unfold ClassValidatorPipe.constructor, ClassValidationPipe.constructor.
  apply class_pipes_same_fields.
Qed.

(** What [transform] does once the value is resolved, not nullish, and its
    metatype is a class to validate: one case for each answer of the
    capabilities. *)
Lemma class_transform_validated
    (cp : ClassValidationPipe.pipe) (value : unknown) (v : JSValue)
    (metadata : ArgumentMetadata) (metatype' : Constructor) (host : Host) :
  resolved value = Some v ->
  isNullish v = false ->
  metatype metadata = Some metatype' ->
  ClassValidationPipe.toValidate metatype' = true ->
  let transformOptions := ClassValidationPipe.transformOptions cp in
  let validatorOptions := ClassValidationPipe.validatorOptions cp in
  ClassValidationPipe.transform cp value metadata host
  = match plainToInstance host metatype' v transformOptions with
    | Throw error =>
        ([CallPlainToInstance metatype' v transformOptions], Rejected (rethrown error))
    | Return object =>
        ([CallPlainToInstance metatype' v transformOptions;
          CallValidate object validatorOptions],
         match validate host object validatorOptions with
         | Fulfilled [] => Fulfilled object
         | Fulfilled errors =>
             Rejected (BadRequestException
                         (JSString.join "; "
                            (ClassValidationPipe.buildErrorMessages errors None)))
         | Rejected error => Rejected (rethrown error)
         | Pending => Pending
         end)
    end.
Proof.
  intros Hres Hnull Hmt Hval. simpl.
  unfold ClassValidationPipe.transform. rewrite (bind_resolved _ _ _ _ Hres).
  rewrite Hmt, Hval, Hnull. simpl. async.
  destruct (plainToInstance host metatype' v (ClassValidationPipe.transformOptions cp))
    as [object | error]; simpl.
  - destruct (validate host object (ClassValidationPipe.validatorOptions cp))
      as [[ | e errors] | error | ]; simpl; try reflexivity.
    unfold rethrown. destruct (isBadRequestException error); reflexivity.
  - unfold rethrown. destruct (isBadRequestException error); reflexivity.
Qed.

(** C6: when the structural transform throws, or the structural validation
    rejects with, a failure that is not a [BadRequestException], the class
    pipes fail with the [BadRequestException] "Validation failed": the message
    of the cause does not appear. *)
Theorem unexpected_failure_is_generic
    (validatorOptions transformOptions : gmap string JSValue)
    (value : unknown) (v : JSValue) (metadata : ArgumentMetadata)
    (metatype' : Constructor) (host : Host) (cause : string) :
  resolved value = Some v ->
  isNullish v = false ->
  metatype metadata = Some metatype' ->
  ClassValidationPipe.toValidate metatype' = true ->
  plainToInstance host metatype' v transformOptions = Throw (Error cause)
  \/ (exists object,
        plainToInstance host metatype' v transformOptions = Return object
        /\ validate host object validatorOptions = Rejected (Error cause)) ->
  snd (ClassValidationPipe.transform
         (ClassValidationPipe.mkPipe validatorOptions transformOptions)
         value metadata host)
  = Rejected (BadRequestException "Validation failed")
  /\ snd (ClassValidatorPipe.transform
            (ClassValidatorPipe.mkPipe validatorOptions transformOptions)
            value metadata host)
     = Rejected (BadRequestException "Validation failed").
Proof.
  intros Hres Hnull Hmt Hval Hfail.
  rewrite class_pipes_same_fields.
  rewrite (class_transform_validated _ _ _ _ _ _ Hres Hnull Hmt Hval). simpl.
  destruct Hfail as [Hthrow | [object [Hret Hrej]]].
  - rewrite Hthrow. split; reflexivity.
  - rewrite Hret, Hrej. split; reflexivity.
Qed.

Lemma unexpected_failure_is_generic_witness :
  snd (ClassValidationPipe.transform (ClassValidationPipe.constructor None None)
         (NotPromise plainObject) (bodyOf (Class "CreateUserDto"))
         (rejectingHost (Error "connect ECONNREFUSED 10.0.0.7:5432")))
  = Rejected (BadRequestException "Validation failed")
  /\ snd (ClassValidatorPipe.transform (ClassValidatorPipe.constructor None None)
            (NotPromise plainObject) (bodyOf (Class "CreateUserDto"))
            (rejectingHost (Error "connect ECONNREFUSED 10.0.0.7:5432")))
     = Rejected (BadRequestException "Validation failed").
Proof.
  apply (unexpected_failure_is_generic _ _ (NotPromise plainObject) plainObject
           (bodyOf (Class "CreateUserDto")) (Class "CreateUserDto")
           (rejectingHost (Error "connect ECONNREFUSED 10.0.0.7:5432"))
           "connect ECONNREFUSED 10.0.0.7:5432");
    try reflexivity.
  right. exists plainObject. split; reflexivity.
Defined.

(** ** Flattening of the violations *)

Lemma append_cons (c : ascii) (a b : string) :
  (String c a ++ b)%string = String c (a ++ b).
Proof. reflexivity. Qed.

Lemma append_assoc (a b c : string) : ((a ++ b) ++ c = a ++ (b ++ c))%string.
Proof.
  induction a as [ | x a IH]; [reflexivity | ].
  rewrite !append_cons. now rewrite IH.
Qed.

Lemma join_snoc (sep : string) (names : list string) (name : string) :
  names <> [] ->
  JSString.join sep (names ++ [name]) = (JSString.join sep names ++ sep ++ name)%string.
Proof.
  induction names as [ | x [ | y names] IH]; intros Hne.
  - contradiction.
  - reflexivity.
  - change (JSString.join sep ((x :: y :: names) ++ [name]))
      with (x ++ sep ++ JSString.join sep ((y :: names) ++ [name]))%string.
    rewrite IH by discriminate.
    change (JSString.join sep (x :: y :: names))
      with (x ++ sep ++ JSString.join sep (y :: names))%string.
    now rewrite !append_assoc.
Qed.

Lemma join_head_nonempty (sep name : string) (names : list string) :
  name <> "" -> JSString.join sep (name :: names) <> "".
Proof.
  intros Hne. destruct name as [ | c name]; [contradiction | ].
  destruct names as [ | next names].
  - discriminate.
  - change (JSString.join sep (String c name :: next :: names))
      with (String c name ++ sep ++ JSString.join sep (next :: names))%string.
    rewrite append_cons. discriminate.
Qed.

Lemma dropEmpty_head (names : list string) (name : string) (rest : list string) :
  dropEmpty names = name :: rest -> name <> "".
Proof.
  induction names as [ | x names IH]; simpl; [discriminate | ].
  destruct (String.eqb_spec x ""); [exact IH | ].
  intros H. inversion H. now subst.
Qed.

Lemma dropEmpty_app (names more : list string) :
  dropEmpty (names ++ more)
  = match dropEmpty names with
    | [] => dropEmpty more
    | kept => (kept ++ more)%list
    end.
Proof.
  induction names as [ | x names IH]; simpl.
  - now destruct (dropEmpty more).
  - destruct (String.eqb x ""); [exact IH | reflexivity].
Qed.

(** The path of a node from the path of its parent, as the code computes it. *)
Lemma truthyPath_snoc (ancestors : list string) (property' : string) :
  truthyPath (ancestors ++ [property'])
  = if ToBoolean (VString (truthyPath ancestors))
    then (truthyPath ancestors ++ "." ++ property')%string
    else property'.
Proof.
  unfold truthyPath. rewrite dropEmpty_app.
  destruct (dropEmpty ancestors) as [ | name rest] eqn:Hdrop.
  - simpl. destruct (String.eqb_spec property' ""); [now subst | reflexivity].
  - pose proof (join_head_nonempty "." name rest (dropEmpty_head _ _ _ Hdrop)) as Hne.
    unfold ToBoolean. apply String.eqb_neq in Hne. rewrite Hne. simpl negb.
    apply join_snoc. discriminate.
Qed.

(** Induction on a violation with its children. *)
Lemma ValidationError_children_ind (P : ValidationError -> Prop) :
  (forall property' constraints' children',
      Forall P children' -> P (mkValidationError property' constraints' children')) ->
  forall error, P error.
Proof.
  intros Hnode. fix IH 1. intros [property' constraints' children'].
  apply Hnode. induction children' as [ | child children' IHchildren].
  - constructor.
  - constructor; [apply IH | exact IHchildren].
Qed.

Lemma fold_forEachError (step : list string -> ValidationError -> list string)
    (flat : ValidationError -> list string) (errors : list ValidationError) :
  Forall (fun error => forall messages, step messages error = (messages ++ flat error)%list)
         errors ->
  forall messages,
    fold_left step errors messages = (messages ++ flat_map flat errors)%list.
Proof.
  induction 1 as [ | error errors Herror _ IH]; intros messages; simpl.
  - now rewrite app_nil_r.
  - rewrite Herror, IH. now rewrite <- app_assoc.
Qed.

(** The callback appends the flattening of the violation, when the parent
    path it receives is the path of the ancestors; an absent parent and an
    empty parent path are not told apart. *)
Lemma forEachError_flattenError (error : ValidationError) :
  forall (parentProperty : option string) (ancestors : list string)
         (messages : list string),
    default "" parentProperty = truthyPath ancestors ->
    ClassValidationPipe.forEachError parentProperty messages error
    = (messages ++ flattenError truthyPath ancestors error)%list.
Proof.
  induction error as [property' constraints' children' IH]
    using ValidationError_children_ind.
  intros parentProperty ancestors messages Hparent.
  cbn [ClassValidationPipe.forEachError flattenError].
  set (propertyPath :=
         match parentProperty with
         | Some parent =>
             if ToBoolean (VString parent) then (parent ++ "." ++ property')%string
             else property'
         | None => property'
         end).
  assert (Hpath : propertyPath = truthyPath (ancestors ++ [property'])).
  { subst propertyPath. rewrite truthyPath_snoc, <- Hparent.
    destruct parentProperty as [parent | ]; reflexivity. }
  clearbody propertyPath. subst propertyPath.
  assert (Hchildren :
            forall acc,
              fold_left (ClassValidationPipe.forEachError
                           (Some (truthyPath (ancestors ++ [property']))))
                        children' acc
              = (acc ++ flat_map (flattenError truthyPath (ancestors ++ [property']))
                                 children')%list).
  { apply fold_forEachError.
    eapply Forall_impl; [exact IH | ].
    intros child Hchild acc. apply Hchild. reflexivity. }
  destruct constraints' as [constraints' | ]; destruct children' as [ | child children'];
    rewrite ?Hchildren; simpl; rewrite ?app_nil_r, <- ?app_assoc; reflexivity.
Qed.

(** [buildErrorMessages] is the depth-first flattening, with the path of the
    code. *)
Lemma buildErrorMessages_flattenErrors (errors : list ValidationError) :
  ClassValidationPipe.buildErrorMessages errors None = flattenErrors truthyPath errors.
Proof.
  unfold ClassValidationPipe.buildErrorMessages, flattenErrors.
  rewrite (fold_forEachError _ (flattenError truthyPath [])); [reflexivity | ].
  apply Forall_forall. intros error _ messages.
  now apply forEachError_flattenError.
Qed.

Example buildErrorMessages_nested :
  ClassValidationPipe.buildErrorMessages nestedViolations None
  = ["address.street: street must be a string"].
Proof. reflexivity. Qed.

Example buildErrorMessages_user :
  JSString.join "; " (ClassValidationPipe.buildErrorMessages userViolations None)
  = "name: name must be longer than or equal to 2 characters; email: email must be an email".
Proof. reflexivity. Qed.

Lemma headNotEmpty_app (names more : list string) :
  headNotEmpty names -> headNotEmpty (names ++ more).
Proof. destruct names; simpl; [contradiction | trivial]. Qed.

Lemma truthyPath_joinedPath (names : list string) :
  headNotEmpty names -> truthyPath names = joinedPath names.
Proof.
  destruct names as [ | name names]; simpl; [contradiction | ].
  intros Hne. unfold truthyPath, joinedPath. simpl.
  apply String.eqb_neq in Hne. now rewrite Hne.
Qed.

(** Below a first name that is not empty, the path of the code is the names
    joined with ".". *)
Lemma flattenError_joinedPath (error : ValidationError) :
  forall ancestors : list string,
    headNotEmpty (ancestors ++ [property error]) ->
    flattenError truthyPath ancestors error = flattenError joinedPath ancestors error.
Proof.
  induction error as [property' constraints' children' IH]
    using ValidationError_children_ind.
  intros ancestors Hhead. simpl in Hhead. cbn [flattenError].
  rewrite (truthyPath_joinedPath _ Hhead). f_equal.
  induction IH as [ | child children' Hchild _ IHchildren]; [reflexivity | ].
  simpl. rewrite IHchildren. f_equal.
  apply Hchild. now apply headNotEmpty_app.
Qed.

Lemma flattenErrors_joinedPath (errors : list ValidationError) :
  Forall (fun error => property error <> "") errors ->
  flattenErrors truthyPath errors = flattenErrors joinedPath errors.
Proof.
  unfold flattenErrors.
  induction 1 as [ | error errors Hname _ IH]; [reflexivity | ].
  simpl. rewrite IH. f_equal. now apply flattenError_joinedPath.
Qed.

(** C5, amended: when the validation reports violations, the class pipes fail
    with the [BadRequestException] whose message is the segments
    "<propertyPath>: <constraint messages joined with ', '>" joined with "; ",
    one segment for each violation that carries constraints, depth-first and a
    parent before its children; the path of a violation is the property names
    of its ancestors and its own joined with ".", after the leading empty
    names are dropped, which is the names joined with "." whenever no
    top-level property name is empty. *)
Theorem violations_are_flattened
    (validatorOptions transformOptions : gmap string JSValue)
    (value : unknown) (v : JSValue) (metadata : ArgumentMetadata)
    (metatype' : Constructor) (host : Host) (object : JSValue)
    (errors : list ValidationError) :
  resolved value = Some v ->
  isNullish v = false ->
  metatype metadata = Some metatype' ->
  ClassValidationPipe.toValidate metatype' = true ->
  plainToInstance host metatype' v transformOptions = Return object ->
  validate host object validatorOptions = Fulfilled errors ->
  errors <> [] ->
  snd (ClassValidationPipe.transform
         (ClassValidationPipe.mkPipe validatorOptions transformOptions)
         value metadata host)
  = Rejected (BadRequestException (JSString.join "; " (flattenErrors truthyPath errors)))
  /\ snd (ClassValidatorPipe.transform
            (ClassValidatorPipe.mkPipe validatorOptions transformOptions)
            value metadata host)
     = Rejected (BadRequestException (JSString.join "; " (flattenErrors truthyPath errors)))
  /\ (Forall (fun error => property error <> "") errors ->
      flattenErrors truthyPath errors = flattenErrors joinedPath errors).
Proof.
  intros Hres Hnull Hmt Hval Hinstance Herrors Hne.
  rewrite class_pipes_same_fields.
  rewrite (class_transform_validated _ _ _ _ _ _ Hres Hnull Hmt Hval). simpl.
  rewrite Hinstance, Herrors. simpl.
  rewrite buildErrorMessages_flattenErrors.
  destruct errors as [ | error errors]; [contradiction | ].
  repeat split. apply flattenErrors_joinedPath.
Qed.

Lemma violations_are_flattened_witness :
  snd (ClassValidationPipe.transform (ClassValidationPipe.constructor None None)
         (NotPromise plainObject) (bodyOf (Class "CreateUserDto"))
         (reportingHost nestedViolations))
  = Rejected (BadRequestException "address.street: street must be a string")
  /\ snd (ClassValidatorPipe.transform (ClassValidatorPipe.constructor None None)
            (NotPromise plainObject) (bodyOf (Class "CreateUserDto"))
            (reportingHost nestedViolations))
     = Rejected (BadRequestException "address.street: street must be a string")
  /\ (Forall (fun error => property error <> "") nestedViolations ->
      flattenErrors truthyPath nestedViolations = flattenErrors joinedPath nestedViolations).
Proof.
  apply (violations_are_flattened _ _ (NotPromise plainObject) plainObject
           (bodyOf (Class "CreateUserDto")) (Class "CreateUserDto")
           (reportingHost nestedViolations) plainObject nestedViolations);
    try reflexivity.
  discriminate.
Defined.

(** C5 as stated fails below a property whose name is the empty string: the
    code gives the child the path "x", the names joined with "." are ".x". *)
Lemma violations_joined_path_counterexample :
  snd (ClassValidationPipe.transform (ClassValidationPipe.constructor None None)
         (NotPromise plainObject) (bodyOf (Class "CreateUserDto"))
         (reportingHost emptyNameViolations))
  = Rejected (BadRequestException "x: x must be a string")
  /\ JSString.join "; " (flattenErrors joinedPath emptyNameViolations)
     = ".x: x must be a string"
  /\ snd (ClassValidationPipe.transform (ClassValidationPipe.constructor None None)
            (NotPromise plainObject) (bodyOf (Class "CreateUserDto"))
            (reportingHost emptyNameViolations))
     <> Rejected (BadRequestException
                    (JSString.join "; " (flattenErrors joinedPath emptyNameViolations))).
Proof.
  repeat split; try reflexivity.
  vm_compute. discriminate.
Qed.

(** ** The primitive pipe *)

(** What [transform] does once the value is resolved, not nullish, and a
    metatype is declared: the outcome of [transformValue], a failure that is
    not a [BadRequestException] being wrapped with the kind of argument. *)
Lemma primitive_transform_typed
    (pp : PrimitiveValidationPipe.pipe) (value : unknown) (v : JSValue)
    (metadata : ArgumentMetadata) (metatype' : Constructor) (host : Host) :
  resolved value = Some v ->
  isNullish v = false ->
  metatype metadata = Some metatype' ->
  PrimitiveValidationPipe.transform pp value metadata host
  = ([], match PrimitiveValidationPipe.transformValue pp v metatype' with
         | Return result => Fulfilled result
         | Throw (BadRequestException m) => Rejected (BadRequestException m)
         | Throw (Error m) =>
             Rejected (BadRequestException
                         ("Failed to validate " ++ type metadata ++ ": " ++ m))
         end).
Proof.
  intros Hres Hnull Hmt.
  unfold PrimitiveValidationPipe.transform. rewrite (bind_resolved _ _ _ _ Hres).
  rewrite Hnull, Hmt. async.
  destruct (PrimitiveValidationPipe.transformValue pp v metatype') as [result | [m | m]];
    reflexivity.
Qed.

(** The primitive pipe never consults the host. *)
Lemma primitive_transform_host_independent
    (pp : PrimitiveValidationPipe.pipe) (value : unknown)
    (metadata : ArgumentMetadata) (host1 host2 : Host) :
  PrimitiveValidationPipe.transform pp value metadata host1
  = PrimitiveValidationPipe.transform pp value metadata host2.
Proof.
  unfold PrimitiveValidationPipe.transform.
  destruct value as [v | [v | reason | ]]; try reflexivity;
    async; simpl; destruct (isNullish v); try reflexivity;
    destruct (metatype metadata) as [mt | ]; try reflexivity;
    destruct (PrimitiveValidationPipe.transformValue pp v mt) as [result | [m | m]];
    reflexivity.
Qed.

(** Only [String] applied to an object can fail with something else than a
    [BadRequestException]. *)
Lemma transformValue_Error
    (pp : PrimitiveValidationPipe.pipe) (v : JSValue) (metatype' : Constructor)
    (m : string) :
  PrimitiveValidationPipe.transformValue pp v metatype' = Throw (Error m) ->
  metatype' = StringConstructor
  /\ exists o, v = VObject o /\ stringValue o = Throw (Error m).
Proof.
  unfold PrimitiveValidationPipe.transformValue.
  destruct metatype'; simpl;
    repeat match goal with
           | |- context [if ?b then _ else _] => destruct b
           | |- context [match ?x with _ => _ end] => destruct x eqn:?
           end;
    simpl; intros H; try discriminate; inversion H; subst; eauto.
Qed.

(** ** Error propagation *)

Lemma prefix_append (s t : string) : String.prefix s (s ++ t) = true.
Proof.
  induction s as [ | c s IH]; [destruct t; reflexivity | ].
  rewrite append_cons. simpl. destruct (ascii_dec c c); [exact IH | contradiction].
Qed.

Lemma contains_prefix (needle haystack : string) :
  String.prefix needle haystack = true -> JSString.contains needle haystack = true.
Proof. intros H. destruct haystack; simpl in *; now rewrite H. Qed.

Lemma contains_append (needle before after : string) :
  JSString.contains needle (before ++ needle ++ after) = true.
Proof.
  induction before as [ | c before IH].
  - change ("" ++ needle ++ after)%string with (needle ++ after)%string.
    apply contains_prefix, prefix_append.
  - rewrite append_cons. simpl. rewrite IH. apply orb_true_r.
Qed.

(** C3, amended: in the three pipes a [BadRequestException] raised inside the
    [try] of [transform] is raised again unchanged; any other failure is
    wrapped by the primitive pipe into the [BadRequestException]
    "Failed to validate <metadata.type>: <message of the cause>", which
    includes the kind of argument, and by the class pipes into the
    [BadRequestException] "Validation failed", which includes neither the
    kind of argument nor the cause. *)
Theorem error_propagation
    (pp : PrimitiveValidationPipe.pipe)
    (validatorOptions transformOptions : gmap string JSValue)
    (value : unknown) (v : JSValue) (host : Host)
    (metadata : ArgumentMetadata) (metatype' : Constructor)
    (metadataC : ArgumentMetadata) (metatypeC : Constructor) :
  resolved value = Some v ->
  isNullish v = false ->
  metatype metadata = Some metatype' ->
  metatype metadataC = Some metatypeC ->
  ClassValidationPipe.toValidate metatypeC = true ->
  (forall error,
      PrimitiveValidationPipe.transformValue pp v metatype' = Throw error ->
      match error with
      | BadRequestException _ =>
          PrimitiveValidationPipe.transform pp value metadata host
          = ([], Rejected error)
      | Error m =>
          PrimitiveValidationPipe.transform pp value metadata host
          = ([], Rejected (BadRequestException
                             ("Failed to validate " ++ type metadata ++ ": " ++ m)))
          /\ JSString.contains (type metadata)
               ("Failed to validate " ++ type metadata ++ ": " ++ m) = true
      end)
  /\ (forall error,
         plainToInstance host metatypeC v transformOptions = Throw error
         \/ (exists object,
               plainToInstance host metatypeC v transformOptions = Return object
               /\ validate host object validatorOptions = Rejected error) ->
         let wrapped :=
           match error with
           | BadRequestException _ => error
           | Error _ => BadRequestException "Validation failed"
           end in
         snd (ClassValidationPipe.transform
                (ClassValidationPipe.mkPipe validatorOptions transformOptions)
                value metadataC host)
         = Rejected wrapped
         /\ snd (ClassValidatorPipe.transform
                   (ClassValidatorPipe.mkPipe validatorOptions transformOptions)
                   value metadataC host)
            = Rejected wrapped).
Proof.
  intros Hres Hnull Hmt HmtC Hval. split.
  - intros error Hthrow.
    rewrite (primitive_transform_typed _ _ _ _ _ _ Hres Hnull Hmt), Hthrow.
    destruct error as [m | m]; [reflexivity | ].
    split; [reflexivity | ].
    apply (contains_append (type metadata) "Failed to validate " (": " ++ m)).
  - intros error Hfail wrapped.
    rewrite class_pipes_same_fields.
    rewrite (class_transform_validated _ _ _ _ _ _ Hres Hnull HmtC Hval). simpl.
    assert (Hwrapped : rethrown error = wrapped) by (destruct error; reflexivity).
    destruct Hfail as [Hthrow | [object [Hret Hrej]]].
    + rewrite Hthrow. simpl. rewrite Hwrapped. split; reflexivity.
    + rewrite Hret, Hrej. simpl. rewrite Hwrapped. split; reflexivity.
Qed.

Lemma error_propagation_witness :
  (PrimitiveValidationPipe.transform (PrimitiveValidationPipe.constructor None)
     (NotPromise bareObject) (paramOf StringConstructor)
     (throwingHost (BadRequestException "email is taken"))
   = ([], Rejected (BadRequestException
                      "Failed to validate param: Cannot convert object to primitive value"))
   /\ JSString.contains "param"
        "Failed to validate param: Cannot convert object to primitive value" = true)
  /\ snd (ClassValidationPipe.transform (ClassValidationPipe.constructor None None)
            (NotPromise bareObject) (bodyOf (Class "CreateUserDto"))
            (throwingHost (BadRequestException "email is taken")))
     = Rejected (BadRequestException "email is taken").
Proof.
  destruct (error_propagation
              (PrimitiveValidationPipe.constructor None)
              (ClassValidationPipe.validatorOptions (ClassValidationPipe.constructor None None))
              (ClassValidationPipe.transformOptions (ClassValidationPipe.constructor None None))
              (NotPromise bareObject) bareObject
              (throwingHost (BadRequestException "email is taken"))
              (paramOf StringConstructor) StringConstructor
              (bodyOf (Class "CreateUserDto")) (Class "CreateUserDto")
              eq_refl eq_refl eq_refl eq_refl eq_refl) as [Hprimitive Hclass].
  split.
  - exact (Hprimitive (Error "Cannot convert object to primitive value") eq_refl).
  - exact (proj1 (Hclass (BadRequestException "email is taken") (or_introl eq_refl))).
Defined.

(** C3 as stated fails in the class pipes: the message that wraps an
    unclassified failure does not include the kind of argument. *)
Lemma generic_message_omits_kind_counterexample :
  plainToInstance (throwingHost (Error "Unexpected token")) (Class "CreateUserDto")
    plainObject
    (ClassValidationPipe.transformOptions (ClassValidationPipe.constructor None None))
  = Throw (Error "Unexpected token")
  /\ snd (ClassValidationPipe.transform (ClassValidationPipe.constructor None None)
            (NotPromise plainObject) (bodyOf (Class "CreateUserDto"))
            (throwingHost (Error "Unexpected token")))
     = Rejected (BadRequestException "Validation failed")
  /\ JSString.contains (type (bodyOf (Class "CreateUserDto"))) "Validation failed" = false.
Proof. repeat split; reflexivity. Qed.

(** ** The boolean target *)

Lemma isWhiteSpace_lowerChar (c : ascii) :
  JSString.isWhiteSpace (JSString.lowerChar c) = JSString.isWhiteSpace c.
Proof. destruct c as [[] [] [] [] [] [] [] []]; reflexivity. Qed.

Lemma trimStart_toLowerCase (s : string) :
  JSString.trimStart (JSString.toLowerCase s)
  = JSString.toLowerCase (JSString.trimStart s).
Proof.
  induction s as [ | c s IH]; simpl; [reflexivity | ].
  rewrite isWhiteSpace_lowerChar. destruct (JSString.isWhiteSpace c); [exact IH | reflexivity].
Qed.

Lemma trimEnd_toLowerCase (s : string) :
  JSString.trimEnd (JSString.toLowerCase s)
  = JSString.toLowerCase (JSString.trimEnd s).
Proof.
  induction s as [ | c s IH]; simpl; [reflexivity | ].
  rewrite IH. destruct (JSString.trimEnd s) as [ | c' t]; simpl; [ | reflexivity].
  rewrite isWhiteSpace_lowerChar. destruct (JSString.isWhiteSpace c); reflexivity.
Qed.

(** Lower-casing then trimming, as the code does, is trimming then
    lower-casing. *)
Lemma trim_toLowerCase (s : string) :
  JSString.trim (JSString.toLowerCase s) = normalized s.
Proof.
  unfold normalized, JSString.trim.
  now rewrite trimStart_toLowerCase, trimEnd_toLowerCase.
Qed.

Lemma includes_In (texts : list string) (s : string) :
  JSString.includes texts s = true <-> In s texts.
Proof.
  unfold JSString.includes. rewrite existsb_exists. split.
  - intros [x [Hin Heq]]. apply String.eqb_eq in Heq. now subst.
  - intros Hin. exists s. split; [exact Hin | apply String.eqb_refl].
Qed.

Lemma includes_not_In (texts : list string) (s : string) :
  ~ In s texts -> JSString.includes texts s = false.
Proof.
  intros Hnot. destruct (JSString.includes texts s) eqn:H; [ | reflexivity].
  apply includes_In in H. contradiction.
Qed.

Lemma falsy_not_truthy (s : string) :
  In s falsyTexts -> JSString.includes truthyTexts s = false.
Proof.
  unfold falsyTexts. simpl. intros [<- | [<- | [<- | [<- | []]]]]; reflexivity.
Qed.

(** With the boolean switch on, [transformValue] on the [Boolean] target. *)
Lemma transformValue_Boolean (pp : PrimitiveValidationPipe.pipe) (v : JSValue) :
  ToBoolean (getProperty (PrimitiveValidationPipe.options pp) "transformBoolean") = true ->
  PrimitiveValidationPipe.transformValue pp v BooleanConstructor
  = match v with
    | VBoolean _ => Return v
    | VString s =>
        if JSString.includes truthyTexts (normalized s) then Return (VBoolean true)
        else if JSString.includes falsyTexts (normalized s) then Return (VBoolean false)
        else Throw (BadRequestException ("Cannot convert string '" ++ s ++ "' to a boolean"))
    | VNumber n => Return (VBoolean (JSNumber.toBoolean n))
    | _ => Throw (BadRequestException ("Cannot convert " ++ typeof v ++ " to a boolean"))
    end.
Proof.
  intros Henabled. unfold PrimitiveValidationPipe.transformValue.
  simpl Constructor_eqb. rewrite Henabled. simpl andb. cbv iota.
  destruct v; try reflexivity.
  now rewrite trim_toLowerCase.
Qed.

(** C4, amended: with the [Boolean] target and the boolean switch on, a
    boolean is returned as it is; a text is trimmed and lower-cased, then
    "true", "yes", "1" and "on" give true, "false", "no", "0" and "off" give
    false, and any other text fails with
    "Cannot convert string '<value>' to a boolean"; a number gives its
    truthiness: false for 0, -0 and NaN, true for every other number,
    negative and infinite ones included; a bigint, a symbol, an object or a
    function fails with "Cannot convert <typeof value> to a boolean". *)
Theorem boolean_coercion
    (pp : PrimitiveValidationPipe.pipe) (value : unknown) (v : JSValue)
    (metadata : ArgumentMetadata) (host : Host) :
  metatype metadata = Some BooleanConstructor ->
  ToBoolean (getProperty (PrimitiveValidationPipe.options pp) "transformBoolean") = true ->
  resolved value = Some v ->
  let outcome := PrimitiveValidationPipe.transform pp value metadata host in
  match v with
  | VBoolean b => outcome = ([], Fulfilled (VBoolean b))
  | VString s =>
      (In (normalized s) truthyTexts -> outcome = ([], Fulfilled (VBoolean true)))
      /\ (In (normalized s) falsyTexts -> outcome = ([], Fulfilled (VBoolean false)))
      /\ (~ In (normalized s) (truthyTexts ++ falsyTexts) ->
          outcome = ([], Rejected (BadRequestException
                                     ("Cannot convert string '" ++ s ++ "' to a boolean"))))
  | VNumber (S754_zero _) | VNumber S754_nan => outcome = ([], Fulfilled (VBoolean false))
  | VNumber (S754_finite _ _ _) | VNumber (S754_infinity _) =>
      outcome = ([], Fulfilled (VBoolean true))
  | VBigInt _ | VSymbol _ | VObject _ =>
      outcome = ([], Rejected (BadRequestException
                                 ("Cannot convert " ++ typeof v ++ " to a boolean")))
  | VNull | VUndefined => outcome = ([], Fulfilled v)
  end.
Proof.
  intros Hmt Henabled Hres outcome. subst outcome.
  destruct (isNullish v) eqn:Hnull.
  { pose proof (primitive_transform_nullish pp value v metadata host Hres Hnull) as H.
    destruct v; try discriminate; exact H. }
  rewrite (primitive_transform_typed _ _ _ _ _ _ Hres Hnull Hmt).
  rewrite (transformValue_Boolean _ _ Henabled).
  destruct v as [ | | b | n | s | z | d | o]; try discriminate; try reflexivity.
  - destruct n; reflexivity.
  - repeat split.
    + intros Hin. apply includes_In in Hin. now rewrite Hin.
    + intros Hin. rewrite (falsy_not_truthy _ Hin).
      apply includes_In in Hin. now rewrite Hin.
    + intros Hnot.
      rewrite !includes_not_In; [reflexivity | | ];
        intros Hin; apply Hnot, in_or_app; tauto.
Qed.

Lemma boolean_coercion_witness :
  PrimitiveValidationPipe.transform (PrimitiveValidationPipe.constructor None)
    (IsPromise (Fulfilled (VString " YES "))) (paramOf BooleanConstructor) acceptingHost
  = ([], Fulfilled (VBoolean true)).
Proof.
  pose proof (boolean_coercion (PrimitiveValidationPipe.constructor None)
                (IsPromise (Fulfilled (VString " YES "))) (VString " YES ")
                (paramOf BooleanConstructor) acceptingHost eq_refl eq_refl eq_refl)
    as H.
  cbv zeta iota in H. destruct H as [Htrue _].
  apply Htrue. right. left. reflexivity.
Defined.

Example boolean_examples :
  map (fun v => snd (PrimitiveValidationPipe.transform (PrimitiveValidationPipe.constructor None)
                       (NotPromise v) (paramOf BooleanConstructor) acceptingHost))
      [VString "TRUE"; VString " on "; VString "No"; VString "0"; VString "maybe";
       VString "2"; VNumber (JSNumber.of_Z 42); VNumber (JSNumber.of_Z (-1));
       VNumber (JSNumber.of_Z 0); VBoolean false; VBigInt 1]
  = [Fulfilled (VBoolean true); Fulfilled (VBoolean true); Fulfilled (VBoolean false);
     Fulfilled (VBoolean false);
     Rejected (BadRequestException "Cannot convert string 'maybe' to a boolean");
     Rejected (BadRequestException "Cannot convert string '2' to a boolean");
     Fulfilled (VBoolean true); Fulfilled (VBoolean true); Fulfilled (VBoolean false);
     Fulfilled (VBoolean false);
     Rejected (BadRequestException "Cannot convert bigint to a boolean")].
Proof. vm_compute. reflexivity. Qed.

(** C4 as stated fails on NaN: it is a number, it is not zero, and its
    truthiness is false. *)
Lemma NaN_is_falsy_counterexample :
  typeof (VNumber JSNumber.NaN) = "number"
  /\ SFeqb JSNumber.NaN (S754_zero false) = false
  /\ SFeqb JSNumber.NaN (S754_zero true) = false
  /\ PrimitiveValidationPipe.transform (PrimitiveValidationPipe.constructor None)
       (NotPromise (VNumber JSNumber.NaN)) (paramOf BooleanConstructor) acceptingHost
     = ([], Fulfilled (VBoolean false)).
Proof. repeat split; reflexivity. Qed.

(** ** The number target *)

(** With the number switch on, a text is converted by [Number], and the
    conversion fails exactly when the result is NaN. *)
Lemma number_coercion_of_text
    (pp : PrimitiveValidationPipe.pipe) (value : unknown) (s : string)
    (metadata : ArgumentMetadata) (host : Host) :
  metatype metadata = Some NumberConstructor ->
  ToBoolean (getProperty (PrimitiveValidationPipe.options pp) "transformNumber") = true ->
  resolved value = Some (VString s) ->
  PrimitiveValidationPipe.transform pp value metadata host
  = ([], if JSNumber.isNaN (JSNumber.StringToNumber s)
         then Rejected (BadRequestException ("Cannot convert '" ++ s ++ "' to a number"))
         else Fulfilled (VNumber (JSNumber.StringToNumber s))).
Proof.
  intros Hmt Henabled Hres.
  rewrite (primitive_transform_typed _ _ _ _ _ _ Hres eq_refl Hmt).
  unfold PrimitiveValidationPipe.transformValue.
  simpl Constructor_eqb. rewrite Henabled. simpl andb. cbv iota.
  destruct (JSNumber.isNaN (JSNumber.StringToNumber s)); reflexivity.
Qed.

Example number_examples :
  map (fun s => snd (PrimitiveValidationPipe.transform (PrimitiveValidationPipe.constructor None)
                       (NotPromise (VString s)) (paramOf NumberConstructor) acceptingHost))
      ["123"; "-42"; "abc"; "12abc"]
  = [Fulfilled (VNumber (JSNumber.of_Z 123)); Fulfilled (VNumber (JSNumber.of_Z (-42)));
     Rejected (BadRequestException "Cannot convert 'abc' to a number");
     Rejected (BadRequestException "Cannot convert '12abc' to a number")].
Proof. vm_compute. reflexivity. Qed.

(** The empty string is white space only: [Number] makes it 0. *)
Lemma StringToNumber_white_space (s : string) :
  JSString.trim s = "" -> JSNumber.StringToNumber s = JSNumber.zero.
Proof. intros H. unfold JSNumber.StringToNumber. now rewrite H. Qed.

(** C1, the code at the empty string: with the [Number] target and the
    default options, [transform] returns the number 0 and raises nothing,
    where the documentation announces "Cannot convert '' to a number". *)
Theorem empty_string_becomes_zero (host : Host) :
  PrimitiveValidationPipe.transform (PrimitiveValidationPipe.constructor None)
    (NotPromise (VString "")) (paramOf NumberConstructor) host
  = ([], Fulfilled (VNumber (S754_zero false))).
Proof. reflexivity. Qed.

(** ** The options of the primitive pipe *)

(** A switch that the options object does not hold is off: the value passes
    through. *)
Lemma absent_switch_is_off
    (options : gmap string JSValue) (value : unknown) (v : JSValue)
    (metadata : ArgumentMetadata) (metatype' : Constructor) (key : string) (host : Host) :
  In (metatype', key)
     [(StringConstructor, "transformString"); (NumberConstructor, "transformNumber");
      (BooleanConstructor, "transformBoolean")] ->
  options !! key = None ->
  metatype metadata = Some metatype' ->
  resolved value = Some v ->
  PrimitiveValidationPipe.transform (PrimitiveValidationPipe.constructor (Some options))
    value metadata host
  = ([], Fulfilled v).
Proof.
  intros Hkey Habsent Hmt Hres.
  destruct (isNullish v) eqn:Hnull; [now apply primitive_transform_nullish | ].
  rewrite (primitive_transform_typed _ _ _ _ _ _ Hres Hnull Hmt).
  unfold PrimitiveValidationPipe.transformValue, getProperty. simpl.
  destruct Hkey as [H | [H | [H | []]]]; inversion H; subst;
    rewrite Habsent; reflexivity.
Qed.

(** C2, the code on options that name one switch only: built with
    [{ transformNumber: true }], the pipe leaves a boolean unchanged under the
    [String] target, where the pipe built without options converts it; the
    switch that is not named is off, not on. *)
Theorem unspecified_switch_is_off (host : Host) :
  PrimitiveValidationPipe.transform
    (PrimitiveValidationPipe.constructor (Some (<["transformNumber" := VBoolean true]> ∅)))
    (NotPromise (VBoolean true)) (paramOf StringConstructor) host
  = ([], Fulfilled (VBoolean true))
  /\ PrimitiveValidationPipe.transform (PrimitiveValidationPipe.constructor None)
       (NotPromise (VBoolean true)) (paramOf StringConstructor) host
     = ([], Fulfilled (VString "true")).
Proof. split; reflexivity. Qed.

(** ** Determinism *)

(** The class pipes consult the host through the calls they record only. *)
Lemma class_transform_same_answers
    (cp : ClassValidationPipe.pipe) (value : unknown) (metadata : ArgumentMetadata)
    (host1 host2 : Host) :
  (forall c, In c (fst (ClassValidationPipe.transform cp value metadata host1)) ->
             sameAnswer host1 host2 c) ->
  ClassValidationPipe.transform cp value metadata host1
  = ClassValidationPipe.transform cp value metadata host2.
Proof.
  intros Hsame.
  destruct (resolved value) as [v | ] eqn:Hres.
  - destruct (metatype metadata) as [mt | ] eqn:Hmt.
    + destruct (ClassValidationPipe.toValidate mt) eqn:Hval.
      * destruct (isNullish v) eqn:Hnull.
        -- unfold ClassValidationPipe.transform.
           rewrite !(bind_resolved _ _ _ _ Hres), Hmt, Hval, Hnull. reflexivity.
        -- rewrite (class_transform_validated _ _ _ _ _ host1 Hres Hnull Hmt Hval) in Hsame.
           rewrite !(class_transform_validated _ _ _ _ _ _ Hres Hnull Hmt Hval).
           cbv zeta in *.
           destruct (plainToInstance host1 mt v (ClassValidationPipe.transformOptions cp))
             as [object | error] eqn:Hinstance.
           ++ pose proof (Hsame _ (or_introl eq_refl)) as H1.
              pose proof (Hsame _ (or_intror (or_introl eq_refl))) as H2.
              simpl in H1, H2. rewrite <- H1, Hinstance, <- H2. reflexivity.
           ++ pose proof (Hsame _ (or_introl eq_refl)) as H1.
              simpl in H1. rewrite <- H1, Hinstance. reflexivity.
      * unfold ClassValidationPipe.transform.
        rewrite !(bind_resolved _ _ _ _ Hres), Hmt, Hval. reflexivity.
    + unfold ClassValidationPipe.transform.
      rewrite !(bind_resolved _ _ _ _ Hres), Hmt. reflexivity.
  - destruct value as [v | [v | reason | ]]; try discriminate; reflexivity.
Qed.

(** * Further properties *)

(** ** The primitive pipe: pass-through *)

Lemma primitive_transform_untyped
    (pp : PrimitiveValidationPipe.pipe) (value : unknown) (v : JSValue)
    (metadata : ArgumentMetadata) (host : Host) :
  resolved value = Some v ->
  metatype metadata = None ->
  PrimitiveValidationPipe.transform pp value metadata host = ([], Fulfilled v).
Proof.
  intros Hres Hmt.
  unfold PrimitiveValidationPipe.transform. rewrite (bind_resolved _ _ _ _ Hres).
  rewrite Hmt. destruct (isNullish v); reflexivity.
Qed.

(** [transformValue] returns the value when the target has no switch, or a
    switch that is falsy. *)
Lemma transformValue_passthrough
    (pp : PrimitiveValidationPipe.pipe) (v : JSValue) (metatype' : Constructor) :
  match switchOf metatype' with
  | Some key => ToBoolean (getProperty (PrimitiveValidationPipe.options pp) key) = false
  | None => True
  end ->
  PrimitiveValidationPipe.transformValue pp v metatype' = Return v.
Proof.
  unfold PrimitiveValidationPipe.transformValue.
  destruct metatype'; simpl; intros H; rewrite ?H; reflexivity.
Qed.

Lemma primitive_transform_passthrough
    (pp : PrimitiveValidationPipe.pipe) (value : unknown) (v : JSValue)
    (metadata : ArgumentMetadata) (metatype' : Constructor) (host : Host) :
  resolved value = Some v ->
  metatype metadata = Some metatype' ->
  match switchOf metatype' with
  | Some key => ToBoolean (getProperty (PrimitiveValidationPipe.options pp) key) = false
  | None => True
  end ->
  PrimitiveValidationPipe.transform pp value metadata host = ([], Fulfilled v).
Proof.
  intros Hres Hmt Hoff.
  destruct (isNullish v) eqn:Hnull; [now apply primitive_transform_nullish | ].
  rewrite (primitive_transform_typed _ _ _ _ _ _ Hres Hnull Hmt).
  now rewrite (transformValue_passthrough _ _ _ Hoff).
Qed.

(** X1: a target whose switch holds a falsy value ([false], [undefined], 0,
    "", [null], or no property at all) is a pass-through: the resolved value
    is returned unchanged, whatever its kind, and nothing is raised. *)
Theorem falsy_switch_is_passthrough
    (pp : PrimitiveValidationPipe.pipe) (value : unknown) (v : JSValue)
    (metadata : ArgumentMetadata) (metatype' : Constructor) (key : string)
    (host : Host) :
  resolved value = Some v ->
  metatype metadata = Some metatype' ->
  switchOf metatype' = Some key ->
  ToBoolean (getProperty (PrimitiveValidationPipe.options pp) key) = false ->
  PrimitiveValidationPipe.transform pp value metadata host = ([], Fulfilled v).
Proof.
  intros Hres Hmt Hkey Hoff.
  apply (primitive_transform_passthrough _ _ _ _ _ _ Hres Hmt).
  now rewrite Hkey.
Qed.

Lemma falsy_switch_is_passthrough_witness :
  PrimitiveValidationPipe.transform
    (PrimitiveValidationPipe.constructor (Some strictOptions))
    (NotPromise (VString "42")) (paramOf NumberConstructor) acceptingHost
  = ([], Fulfilled (VString "42")).
Proof.
  apply (falsy_switch_is_passthrough _ (NotPromise (VString "42")) (VString "42")
           (paramOf NumberConstructor) NumberConstructor "transformNumber");
    reflexivity.
Defined.

(** X2: the primitive pipe governs [String], [Number] and [Boolean] only:
    when the descriptor declares no metatype, or [Array], [Object] or a class,
    the resolved value is returned unchanged whatever the options hold. *)
Theorem other_metatypes_pass_through
    (pp : PrimitiveValidationPipe.pipe) (value : unknown) (v : JSValue)
    (metadata : ArgumentMetadata) (host : Host) :
  resolved value = Some v ->
  match metatype metadata with
  | Some metatype' => switchOf metatype' = None
  | None => True
  end ->
  PrimitiveValidationPipe.transform pp value metadata host = ([], Fulfilled v).
Proof.
  intros Hres Hother.
  destruct (metatype metadata) as [mt | ] eqn:Hmt.
  - apply (primitive_transform_passthrough _ _ _ _ _ _ Hres Hmt). now rewrite Hother.
  - now apply primitive_transform_untyped.
Qed.

Lemma other_metatypes_pass_through_witness :
  PrimitiveValidationPipe.transform (PrimitiveValidationPipe.constructor None)
    (NotPromise (VString "42")) (bodyOf (Class "CreateUserDto")) acceptingHost
  = ([], Fulfilled (VString "42")).
Proof.
  apply (other_metatypes_pass_through _ (NotPromise (VString "42")) (VString "42"));
    reflexivity.
Defined.

(** X3: strict mode.  When the three switches are falsy the pipe returns every
    resolved value unchanged, for every descriptor. *)
Theorem strict_pipe_is_identity
    (pp : PrimitiveValidationPipe.pipe) (value : unknown) (v : JSValue)
    (metadata : ArgumentMetadata) (host : Host) :
  (forall key, In key ["transformString"; "transformNumber"; "transformBoolean"] ->
               ToBoolean (getProperty (PrimitiveValidationPipe.options pp) key) = false) ->
  resolved value = Some v ->
  PrimitiveValidationPipe.transform pp value metadata host = ([], Fulfilled v).
Proof.
  intros Hoff Hres.
  destruct (metatype metadata) as [mt | ] eqn:Hmt;
    [ | now apply primitive_transform_untyped].
  apply (primitive_transform_passthrough _ _ _ _ _ _ Hres Hmt).
  destruct mt; simpl; trivial; apply Hoff; simpl; auto.
Qed.

Lemma strict_pipe_is_identity_witness :
  PrimitiveValidationPipe.transform
    (PrimitiveValidationPipe.constructor (Some strictOptions))
    (IsPromise (Fulfilled (VString "true"))) (paramOf BooleanConstructor) acceptingHost
  = ([], Fulfilled (VString "true")).
Proof.
  apply (strict_pipe_is_identity _ (IsPromise (Fulfilled (VString "true")))
           (VString "true")); [ | reflexivity].
  intros key [<- | [<- | [<- | []]]]; reflexivity.
Defined.

(** ** The primitive pipe: the targets *)

(** With the string switch on, [transformValue] on the [String] target. *)
Lemma transformValue_String (pp : PrimitiveValidationPipe.pipe) (v : JSValue) :
  ToBoolean (getProperty (PrimitiveValidationPipe.options pp) "transformString") = true ->
  isNullish v = false ->
  PrimitiveValidationPipe.transformValue pp v StringConstructor
  = match ToString v with
    | Return s => Return (VString s)
    | Throw error => Throw error
    end.
Proof.
  intros Henabled Hnull. unfold PrimitiveValidationPipe.transformValue.
  simpl Constructor_eqb. rewrite Henabled. simpl andb. cbv iota.
  destruct v; try discriminate; reflexivity.
Qed.

(** With the number switch on, [transformValue] on the [Number] target. *)
Lemma transformValue_Number (pp : PrimitiveValidationPipe.pipe) (v : JSValue) :
  ToBoolean (getProperty (PrimitiveValidationPipe.options pp) "transformNumber") = true ->
  PrimitiveValidationPipe.transformValue pp v NumberConstructor
  = match v with
    | VNumber _ => Return v
    | VString s =>
        if JSNumber.isNaN (JSNumber.StringToNumber s)
        then Throw (BadRequestException ("Cannot convert '" ++ s ++ "' to a number"))
        else Return (VNumber (JSNumber.StringToNumber s))
    | _ => Throw (BadRequestException ("Cannot convert " ++ typeof v ++ " to a number"))
    end.
Proof.
  intros Henabled. unfold PrimitiveValidationPipe.transformValue.
  simpl Constructor_eqb. rewrite Henabled. simpl andb. cbv iota.
  destruct v; reflexivity.
Qed.

(** X4: with the [String] target and the string switch on, the outcome is
    that of [String(value)]: its text when it returns one, a text being
    returned as it is, and the failure of the conversion otherwise; the
    conversion returns a text for every value that is not an object, so only
    an object can make this target fail. *)
Theorem string_coercion
    (pp : PrimitiveValidationPipe.pipe) (value : unknown) (v : JSValue)
    (metadata : ArgumentMetadata) (host : Host) :
  metatype metadata = Some StringConstructor ->
  ToBoolean (getProperty (PrimitiveValidationPipe.options pp) "transformString") = true ->
  resolved value = Some v ->
  isNullish v = false ->
  PrimitiveValidationPipe.transform pp value metadata host
  = ([], match ToString v with
         | Return s => Fulfilled (VString s)
         | Throw (BadRequestException m) => Rejected (BadRequestException m)
         | Throw (Error m) =>
             Rejected (BadRequestException
                         ("Failed to validate " ++ type metadata ++ ": " ++ m))
         end)
  /\ (forall s, v = VString s -> ToString v = Return s)
  /\ ((forall o, v <> VObject o) -> exists s, ToString v = Return s).
Proof.
  intros Hmt Henabled Hres Hnull. repeat split.
  - rewrite (primitive_transform_typed _ _ _ _ _ _ Hres Hnull Hmt).
    rewrite (transformValue_String _ _ Henabled Hnull).
    destruct (ToString v) as [s | [m | m]]; reflexivity.
  - intros s ->. reflexivity.
  - intros Hprimitive. destruct v; simpl; eauto. now destruct (Hprimitive o).
Qed.

Lemma string_coercion_witness :
  PrimitiveValidationPipe.transform (PrimitiveValidationPipe.constructor None)
    (NotPromise (VNumber (JSNumber.of_Z 123))) (paramOf StringConstructor) acceptingHost
  = ([], Fulfilled (VString "123")).
Proof.
  exact (proj1 (string_coercion (PrimitiveValidationPipe.constructor None)
                  (NotPromise (VNumber (JSNumber.of_Z 123))) (VNumber (JSNumber.of_Z 123))
                  (paramOf StringConstructor) acceptingHost
                  eq_refl eq_refl eq_refl eq_refl)).
Defined.

(** X5: with the [Number] target and the number switch on, a number is
    returned as it is, NaN included, so the result of this target is not
    always a number that is not NaN; a boolean, a bigint, a symbol, an object
    or a function is not converted: it fails with
    "Cannot convert <typeof value> to a number". *)
Theorem number_coercion_of_other_kinds
    (pp : PrimitiveValidationPipe.pipe) (value : unknown) (v : JSValue)
    (metadata : ArgumentMetadata) (host : Host) :
  metatype metadata = Some NumberConstructor ->
  ToBoolean (getProperty (PrimitiveValidationPipe.options pp) "transformNumber") = true ->
  resolved value = Some v ->
  match v with
  | VNumber n =>
      PrimitiveValidationPipe.transform pp value metadata host = ([], Fulfilled (VNumber n))
  | VBoolean _ | VBigInt _ | VSymbol _ | VObject _ =>
      PrimitiveValidationPipe.transform pp value metadata host
      = ([], Rejected (BadRequestException
                         ("Cannot convert " ++ typeof v ++ " to a number")))
  | VString _ | VNull | VUndefined => True
  end.
Proof.
  intros Hmt Henabled Hres.
  destruct v; trivial;
    rewrite (primitive_transform_typed _ _ _ _ _ _ Hres eq_refl Hmt);
    rewrite (transformValue_Number _ _ Henabled); reflexivity.
Qed.

Lemma number_coercion_of_other_kinds_witness :
  PrimitiveValidationPipe.transform (PrimitiveValidationPipe.constructor None)
    (NotPromise (VNumber JSNumber.NaN)) (paramOf NumberConstructor) acceptingHost
  = ([], Fulfilled (VNumber JSNumber.NaN))
  /\ PrimitiveValidationPipe.transform (PrimitiveValidationPipe.constructor None)
       (NotPromise (VBoolean true)) (paramOf NumberConstructor) acceptingHost
     = ([], Rejected (BadRequestException "Cannot convert boolean to a number")).
Proof.
  split.
  - exact (number_coercion_of_other_kinds (PrimitiveValidationPipe.constructor None)
             (NotPromise (VNumber JSNumber.NaN)) (VNumber JSNumber.NaN)
             (paramOf NumberConstructor) acceptingHost eq_refl eq_refl eq_refl).
  - exact (number_coercion_of_other_kinds (PrimitiveValidationPipe.constructor None)
             (NotPromise (VBoolean true)) (VBoolean true)
             (paramOf NumberConstructor) acceptingHost eq_refl eq_refl eq_refl).
Defined.

(** What [transformValue] returns has the type of the target, when the switch
    of the target is on. *)
Lemma transformValue_typeof
    (pp : PrimitiveValidationPipe.pipe) (v result : JSValue)
    (metatype' : Constructor) (key : string) :
  switchOf metatype' = Some key ->
  ToBoolean (getProperty (PrimitiveValidationPipe.options pp) key) = true ->
  isNullish v = false ->
  PrimitiveValidationPipe.transformValue pp v metatype' = Return result ->
  typeof result = typeName metatype'.
Proof.
  intros Hkey Henabled Hnull.
  destruct metatype'; simpl in Hkey; inversion Hkey; subst key.
  - rewrite (transformValue_String _ _ Henabled Hnull).
    destruct (ToString v); intros H; inversion H. reflexivity.
  - rewrite (transformValue_Number _ _ Henabled).
    destruct v; try discriminate.
    + intros H; inversion H. reflexivity.
    + destruct (JSNumber.isNaN (JSNumber.StringToNumber s));
        intros H; inversion H. reflexivity.
  - rewrite (transformValue_Boolean _ _ Henabled).
    destruct v; try discriminate.
    + intros H; inversion H. reflexivity.
    + intros H; inversion H. reflexivity.
    + destruct (JSString.includes truthyTexts (normalized s));
        [ | destruct (JSString.includes falsyTexts (normalized s))];
        intros H; inversion H; reflexivity.
Qed.

(** X6: when the switch of a target is on, a value that [transform] returns
    for a resolved value other than [null] and [undefined] has the type of
    the target: [typeof] gives "string", "number" or "boolean". *)
Theorem coerced_value_has_target_type
    (pp : PrimitiveValidationPipe.pipe) (value : unknown) (v result : JSValue)
    (metadata : ArgumentMetadata) (metatype' : Constructor) (key : string)
    (host : Host) :
  metatype metadata = Some metatype' ->
  switchOf metatype' = Some key ->
  ToBoolean (getProperty (PrimitiveValidationPipe.options pp) key) = true ->
  resolved value = Some v ->
  isNullish v = false ->
  snd (PrimitiveValidationPipe.transform pp value metadata host) = Fulfilled result ->
  typeof result = typeName metatype'.
Proof.
  intros Hmt Hkey Henabled Hres Hnull.
  rewrite (primitive_transform_typed _ _ _ _ _ _ Hres Hnull Hmt). simpl.
  destruct (PrimitiveValidationPipe.transformValue pp v metatype')
    as [r | [m | m]] eqn:Hvalue; intros H; inversion H; subst.
  exact (transformValue_typeof _ _ _ _ _ Hkey Henabled Hnull Hvalue).
Qed.

Lemma coerced_value_has_target_type_witness :
  typeof (VNumber (JSNumber.StringToNumber "12.5")) = typeName NumberConstructor.
Proof.
  apply (coerced_value_has_target_type (PrimitiveValidationPipe.constructor None)
           (NotPromise (VString "12.5")) (VString "12.5")
           (VNumber (JSNumber.StringToNumber "12.5"))
           (paramOf NumberConstructor) NumberConstructor "transformNumber" acceptingHost);
    reflexivity.
Defined.

(** A value that [transformValue] returns is returned as it is when it is
    given back with the same target. *)
Lemma transformValue_again
    (pp : PrimitiveValidationPipe.pipe) (v result : JSValue) (metatype' : Constructor) :
  PrimitiveValidationPipe.transformValue pp v metatype' = Return result ->
  PrimitiveValidationPipe.transformValue pp result metatype' = Return result.
Proof.
  unfold PrimitiveValidationPipe.transformValue.
  destruct (Constructor_eqb metatype' StringConstructor
            && ToBoolean (getProperty (PrimitiveValidationPipe.options pp) "transformString")).
  { destruct v; simpl; try (intros H; inversion H; reflexivity).
    destruct (stringValue o); intros H; inversion H; reflexivity. }
  destruct (Constructor_eqb metatype' NumberConstructor
            && ToBoolean (getProperty (PrimitiveValidationPipe.options pp) "transformNumber")).
  { destruct v; simpl; try (intros H; inversion H; reflexivity).
    destruct (JSNumber.isNaN (JSNumber.StringToNumber s));
      intros H; inversion H; reflexivity. }
  destruct (Constructor_eqb metatype' BooleanConstructor
            && ToBoolean (getProperty (PrimitiveValidationPipe.options pp) "transformBoolean")).
  { destruct v; cbv beta iota zeta;
    repeat match goal with
           | |- context [if JSString.includes ?texts ?text then _ else _] =>
               destruct (JSString.includes texts text)
           end;
      intros H; inversion H; reflexivity. }
  intros H; inversion H; reflexivity.
Qed.

(** X7: coercion is idempotent.  A value that [transform] returns is returned
    unchanged when it is passed again to the same pipe with the same
    descriptor. *)
Theorem coercion_is_idempotent
    (pp : PrimitiveValidationPipe.pipe) (value : unknown) (result : JSValue)
    (metadata : ArgumentMetadata) (host : Host) :
  snd (PrimitiveValidationPipe.transform pp value metadata host) = Fulfilled result ->
  PrimitiveValidationPipe.transform pp (NotPromise result) metadata host
  = ([], Fulfilled result).
Proof.
  intros Hfirst.
  destruct (resolved value) as [v | ] eqn:Hres;
    [ | destruct value as [v | [v | reason | ]]; discriminate].
  destruct (isNullish v) eqn:Hnull.
  { rewrite (primitive_transform_nullish _ _ _ _ _ Hres Hnull) in Hfirst.
    inversion Hfirst; subst. now apply primitive_transform_nullish. }
  destruct (metatype metadata) as [mt | ] eqn:Hmt.
  - rewrite (primitive_transform_typed _ _ _ _ _ _ Hres Hnull Hmt) in Hfirst.
    simpl in Hfirst.
    destruct (PrimitiveValidationPipe.transformValue pp v mt)
      as [r | [m | m]] eqn:Hvalue; inversion Hfirst; subst.
    destruct (isNullish result) eqn:Hnull'; [now apply primitive_transform_nullish | ].
    rewrite (primitive_transform_typed _ (NotPromise result) result _ _ _
               eq_refl Hnull' Hmt).
    now rewrite (transformValue_again _ _ _ _ Hvalue).
  - rewrite (primitive_transform_untyped _ _ _ _ _ Hres Hmt) in Hfirst.
    inversion Hfirst; subst. now apply primitive_transform_untyped.
Qed.

Lemma coercion_is_idempotent_witness :
  PrimitiveValidationPipe.transform (PrimitiveValidationPipe.constructor None)
    (NotPromise (VBoolean true)) (paramOf BooleanConstructor) acceptingHost
  = ([], Fulfilled (VBoolean true)).
Proof.
  apply (coercion_is_idempotent _ (NotPromise (VString " On "))). reflexivity.
Defined.

(** ** The primitive pipe: the options *)

Lemma transformValue_same_switches
    (pp1 pp2 : PrimitiveValidationPipe.pipe) (v : JSValue) (metatype' : Constructor) :
  (forall key, In key ["transformString"; "transformNumber"; "transformBoolean"] ->
               ToBoolean (getProperty (PrimitiveValidationPipe.options pp1) key)
               = ToBoolean (getProperty (PrimitiveValidationPipe.options pp2) key)) ->
  PrimitiveValidationPipe.transformValue pp1 v metatype'
  = PrimitiveValidationPipe.transformValue pp2 v metatype'.
Proof.
  intros Hsame. unfold PrimitiveValidationPipe.transformValue.
  rewrite (Hsame "transformString"), (Hsame "transformNumber"),
    (Hsame "transformBoolean"); simpl; auto.
Qed.

(** X8: the options act through the truthiness of the three switches only.
    Two pipes whose switches are truthy alike give the same outcome on every
    argument and descriptor: a switch need not hold a boolean, and any other
    property of the options is ignored. *)
Theorem options_act_through_switches
    (pp1 pp2 : PrimitiveValidationPipe.pipe) (value : unknown)
    (metadata : ArgumentMetadata) (host : Host) :
  (forall key, In key ["transformString"; "transformNumber"; "transformBoolean"] ->
               ToBoolean (getProperty (PrimitiveValidationPipe.options pp1) key)
               = ToBoolean (getProperty (PrimitiveValidationPipe.options pp2) key)) ->
  PrimitiveValidationPipe.transform pp1 value metadata host
  = PrimitiveValidationPipe.transform pp2 value metadata host.
Proof.
  intros Hsame. unfold PrimitiveValidationPipe.transform, bind.
  destruct (resolve value host) as [calls [v | reason | ]]; try reflexivity.
  destruct (isNullish v); [reflexivity | ].
  destruct (metatype metadata) as [mt | ]; [ | reflexivity].
  async. now rewrite (transformValue_same_switches pp1 pp2 v mt Hsame).
Qed.

Lemma options_act_through_switches_witness :
  PrimitiveValidationPipe.transform
    (PrimitiveValidationPipe.constructor (Some truthyOptions))
    (NotPromise (VString "0x1F")) (paramOf NumberConstructor) acceptingHost
  = PrimitiveValidationPipe.transform (PrimitiveValidationPipe.constructor None)
      (NotPromise (VString "0x1F")) (paramOf NumberConstructor) acceptingHost.
Proof.
  apply options_act_through_switches.
  intros key [<- | [<- | [<- | []]]]; reflexivity.
Defined.

(** ** What the pipes raise *)

Lemma rethrown_isBadRequestException (error : exception) :
  isBadRequestException (rethrown error) = true.
Proof. destruct error; reflexivity. Qed.

Lemma primitive_raises_BadRequestException
    (pp : PrimitiveValidationPipe.pipe) (value : unknown)
    (metadata : ArgumentMetadata) (host : Host) (error : exception) :
  snd (PrimitiveValidationPipe.transform pp value metadata host) = Rejected error ->
  isBadRequestException error = true.
Proof.
  destruct (resolved value) as [v | ] eqn:Hres.
  - destruct (isNullish v) eqn:Hnull.
    { now rewrite (primitive_transform_nullish _ _ _ _ _ Hres Hnull). }
    destruct (metatype metadata) as [mt | ] eqn:Hmt.
    + rewrite (primitive_transform_typed _ _ _ _ _ _ Hres Hnull Hmt). simpl.
      destruct (PrimitiveValidationPipe.transformValue pp v mt) as [r | [m | m]];
        intros H; inversion H; reflexivity.
    + now rewrite (primitive_transform_untyped _ _ _ _ _ Hres Hmt).
  - destruct value as [v | [v | reason | ]]; try discriminate;
      intros H; inversion H; reflexivity.
Qed.

Lemma class_raises_BadRequestException
    (cp : ClassValidationPipe.pipe) (value : unknown)
    (metadata : ArgumentMetadata) (host : Host) (error : exception) :
  snd (ClassValidationPipe.transform cp value metadata host) = Rejected error ->
  isBadRequestException error = true.
Proof.
  destruct (resolved value) as [v | ] eqn:Hres.
  - destruct (metatype metadata) as [mt | ] eqn:Hmt.
    + destruct (ClassValidationPipe.toValidate mt) eqn:Hval.
      * destruct (isNullish v) eqn:Hnull.
        -- unfold ClassValidationPipe.transform.
           rewrite (bind_resolved _ _ _ _ Hres), Hmt, Hval, Hnull. discriminate.
        -- rewrite (class_transform_validated _ _ _ _ _ _ Hres Hnull Hmt Hval).
           cbv zeta.
           destruct (plainToInstance host mt v (ClassValidationPipe.transformOptions cp))
             as [object | cause]; simpl.
           ++ destruct (validate host object (ClassValidationPipe.validatorOptions cp))
                as [[ | e errors] | cause | ]; intros H; inversion H;
                try reflexivity; apply rethrown_isBadRequestException.
           ++ intros H; inversion H. apply rethrown_isBadRequestException.
      * unfold ClassValidationPipe.transform.
        rewrite (bind_resolved _ _ _ _ Hres), Hmt, Hval. discriminate.
    + unfold ClassValidationPipe.transform.
      rewrite (bind_resolved _ _ _ _ Hres), Hmt. discriminate.
  - destruct value as [v | [v | reason | ]]; try discriminate;
      intros H; inversion H; reflexivity.
Qed.

(** X9: whatever the argument, the descriptor, the options and the answers of
    the capabilities, a failure of [transform] is a [BadRequestException], in
    the three pipes: no other exception leaves a pipe. *)
Theorem only_BadRequestException_is_raised
    (pp : PrimitiveValidationPipe.pipe) (cp : ClassValidationPipe.pipe)
    (cp' : ClassValidatorPipe.pipe) (value : unknown) (metadata : ArgumentMetadata)
    (host : Host) (error : exception) :
  snd (PrimitiveValidationPipe.transform pp value metadata host) = Rejected error
  \/ snd (ClassValidationPipe.transform cp value metadata host) = Rejected error
  \/ snd (ClassValidatorPipe.transform cp' value metadata host) = Rejected error ->
  isBadRequestException error = true.
Proof.
  intros [H | [H | H]].
  - exact (primitive_raises_BadRequestException _ _ _ _ _ H).
  - exact (class_raises_BadRequestException _ _ _ _ _ H).
  - destruct cp' as [vo to]. rewrite class_pipes_same_fields in H.
    exact (class_raises_BadRequestException _ _ _ _ _ H).
Qed.

Lemma only_BadRequestException_is_raised_witness :
  isBadRequestException (BadRequestException "Validation failed") = true.
Proof.
  apply (only_BadRequestException_is_raised
           (PrimitiveValidationPipe.constructor None)
           (ClassValidationPipe.constructor None None)
           (ClassValidatorPipe.constructor None None)
           (NotPromise plainObject) (bodyOf (Class "CreateUserDto"))
           (throwingHost (Error "out of memory"))).
  right. left. reflexivity.
Defined.

(** ** The constructors of the class pipes *)

Lemma lookup_validator_defaults (key : string) :
  (<["whitelist" := VBoolean true]>
     (<["forbidNonWhitelisted" := VBoolean false]> (∅ : gmap string JSValue))) !! key
  = validatorDefault key.
Proof.
  unfold validatorDefault.
  destruct (String.eqb_spec key "whitelist") as [-> | Hw]; [reflexivity | ].
  rewrite lookup_insert_ne by congruence.
  destruct (String.eqb_spec key "forbidNonWhitelisted") as [-> | Hf]; [reflexivity | ].
  rewrite lookup_insert_ne by congruence. apply lookup_empty.
Qed.

Lemma lookup_transform_defaults (key : string) :
  (<["enableImplicitConversion" := VBoolean true]> (∅ : gmap string JSValue)) !! key
  = transformDefault key.
Proof.
  unfold transformDefault.
  destruct (String.eqb_spec key "enableImplicitConversion") as [-> | He]; [reflexivity | ].
  rewrite lookup_insert_ne by congruence. apply lookup_empty.
Qed.

(** X10: the constructors of the class pipes merge the options over the
    defaults, property by property: a property the caller gives keeps the
    caller's value, [undefined] included; otherwise [whitelist] is [true],
    [forbidNonWhitelisted] is [false] and [enableImplicitConversion] is
    [true], and no other property appears.  Leaving an argument out is giving
    the empty object. *)
Theorem class_options_are_merged
    (validatorOptions transformOptions : option (gmap string JSValue)) (key : string) :
  let cp := ClassValidationPipe.constructor validatorOptions transformOptions in
  let cp' := ClassValidatorPipe.constructor validatorOptions transformOptions in
  ClassValidationPipe.validatorOptions cp !! key
  = match default ∅ validatorOptions !! key with
    | Some given => Some given
    | None => validatorDefault key
    end
  /\ ClassValidationPipe.transformOptions cp !! key
     = match default ∅ transformOptions !! key with
       | Some given => Some given
       | None => transformDefault key
       end
  /\ ClassValidatorPipe.validatorOptions cp' = ClassValidationPipe.validatorOptions cp
  /\ ClassValidatorPipe.transformOptions cp' = ClassValidationPipe.transformOptions cp.
Proof.
  simpl. repeat split.
  - rewrite lookup_union, lookup_validator_defaults.
    destruct (default ∅ validatorOptions !! key), (validatorDefault key); reflexivity.
  - rewrite lookup_union, lookup_transform_defaults.
    destruct (default ∅ transformOptions !! key), (transformDefault key); reflexivity.
Qed.

Example class_options_examples :
  let cp := ClassValidationPipe.constructor
              (Some (<["whitelist" := VUndefined]> (<["groups" := plainObject]> ∅)))
              None in
  map (fun key => ClassValidationPipe.validatorOptions cp !! key)
      ["whitelist"; "forbidNonWhitelisted"; "groups"; "transform"]
  = [Some VUndefined; Some (VBoolean false); Some plainObject; None]
  /\ ClassValidationPipe.transformOptions cp !! "enableImplicitConversion"
     = Some (VBoolean true).
Proof. split; reflexivity. Qed.

(** ** The calls of the class pipes *)

(** X11: the calls a class pipe makes, on every argument, descriptor and
    host.  It makes none, or it calls [plainToInstance] once, on the declared
    metatype, the resolved value and its transform options, and then, only
    when that call returned, [validate] once, on the instance that was
    returned and its validator options: [validate] never runs on the plain
    value, nor after a structural transform that threw. *)
Theorem class_pipe_calls
    (cp : ClassValidationPipe.pipe) (value : unknown) (metadata : ArgumentMetadata)
    (host : Host) :
  match fst (ClassValidationPipe.transform cp value metadata host) with
  | [] => True
  | [CallPlainToInstance cls plain options] =>
      metatype metadata = Some cls /\ resolved value = Some plain
      /\ options = ClassValidationPipe.transformOptions cp
      /\ exists error, plainToInstance host cls plain options = Throw error
  | [CallPlainToInstance cls plain options; CallValidate object options'] =>
      metatype metadata = Some cls /\ resolved value = Some plain
      /\ options = ClassValidationPipe.transformOptions cp
      /\ plainToInstance host cls plain options = Return object
      /\ options' = ClassValidationPipe.validatorOptions cp
  | _ => False
  end.
Proof.
  destruct (resolved value) as [v | ] eqn:Hres.
  - destruct (metatype metadata) as [mt | ] eqn:Hmt.
    + destruct (ClassValidationPipe.toValidate mt) eqn:Hval.
      * destruct (isNullish v) eqn:Hnull.
        -- unfold ClassValidationPipe.transform.
           rewrite (bind_resolved _ _ _ _ Hres), Hmt, Hval, Hnull. exact I.
        -- rewrite (class_transform_validated _ _ _ _ _ _ Hres Hnull Hmt Hval).
           cbv zeta.
           destruct (plainToInstance host mt v (ClassValidationPipe.transformOptions cp))
             as [object | error] eqn:Hinstance; simpl; eauto 10.
      * unfold ClassValidationPipe.transform.
        rewrite (bind_resolved _ _ _ _ Hres), Hmt, Hval. exact I.
    + unfold ClassValidationPipe.transform.
      rewrite (bind_resolved _ _ _ _ Hres), Hmt. exact I.
  - destruct value as [v | [v | reason | ]]; try discriminate; exact I.
Qed.

(** X12: when the validation reports no violation, the class pipes return the
    instance that [plainToInstance] built, which is the object that was
    validated, and not the plain value they received. *)
Theorem valid_instance_is_returned
    (validatorOptions transformOptions : gmap string JSValue)
    (value : unknown) (v : JSValue) (metadata : ArgumentMetadata)
    (metatype' : Constructor) (host : Host) (object : JSValue) :
  resolved value = Some v ->
  isNullish v = false ->
  metatype metadata = Some metatype' ->
  ClassValidationPipe.toValidate metatype' = true ->
  plainToInstance host metatype' v transformOptions = Return object ->
  validate host object validatorOptions = Fulfilled [] ->
  ClassValidationPipe.transform
    (ClassValidationPipe.mkPipe validatorOptions transformOptions) value metadata host
  = ([CallPlainToInstance metatype' v transformOptions;
      CallValidate object validatorOptions], Fulfilled object)
  /\ ClassValidatorPipe.transform
       (ClassValidatorPipe.mkPipe validatorOptions transformOptions) value metadata host
     = ([CallPlainToInstance metatype' v transformOptions;
         CallValidate object validatorOptions], Fulfilled object).
Proof.
  intros Hres Hnull Hmt Hval Hinstance Hvalid.
  rewrite class_pipes_same_fields.
  rewrite (class_transform_validated _ _ _ _ _ _ Hres Hnull Hmt Hval). simpl.
  rewrite Hinstance, Hvalid. split; reflexivity.
Qed.

Lemma valid_instance_is_returned_witness :
  snd (ClassValidationPipe.transform (ClassValidationPipe.constructor None None)
         (NotPromise plainObject) (bodyOf (Class "CreateUserDto")) (instantiatingHost []))
  = Fulfilled instanceObject.
Proof.
  exact (f_equal snd
           (proj1 (valid_instance_is_returned _ _ (NotPromise plainObject) plainObject
                     (bodyOf (Class "CreateUserDto")) (Class "CreateUserDto")
                     (instantiatingHost []) instanceObject
                     eq_refl eq_refl eq_refl eq_refl eq_refl eq_refl))).
Defined.

(** ** The messages of the violations *)

Lemma forEachError_length (error : ValidationError) :
  forall (parentProperty : option string) (messages : list string),
    length (ClassValidationPipe.forEachError parentProperty messages error)
    = (length messages + constrained error)%nat.
Proof.
  induction error as [property' constraints' children' IH]
    using ValidationError_children_ind.
  intros parentProperty messages.
  cbn [ClassValidationPipe.forEachError constrained].
  set (propertyPath :=
         match parentProperty with
         | Some parent =>
             if ToBoolean (VString parent) then (parent ++ "." ++ property')%string
             else property'
         | None => property'
         end).
  clearbody propertyPath.
  assert (Hchildren :
            forall acc,
              length (fold_left (ClassValidationPipe.forEachError (Some propertyPath))
                                children' acc)
              = (length acc + list_sum (map constrained children'))%nat).
  { clear constraints'.
    induction IH as [ | child children' Hchild _ IHchildren]; intros acc; simpl.
    - lia.
    - rewrite IHchildren, Hchild. lia. }
  destruct constraints' as [constraints' | ]; destruct children' as [ | child children'];
    rewrite ?length_app, ?Hchildren; simpl; lia.
Qed.

Lemma buildErrorMessages_length
    (errors : list ValidationError) (parentProperty : option string) :
  length (ClassValidationPipe.buildErrorMessages errors parentProperty)
  = constrainedCount errors.
Proof.
  unfold ClassValidationPipe.buildErrorMessages, constrainedCount.
  change (list_sum (map constrained errors))
    with (length (@nil string) + list_sum (map constrained errors))%nat.
  generalize (@nil string) as acc.
  induction errors as [ | error errors IH]; intros acc; simpl.
  - lia.
  - rewrite IH, forEachError_length. lia.
Qed.

Lemma buildErrorMessages_app
    (errors errors' : list ValidationError) (parentProperty : option string) :
  ClassValidationPipe.buildErrorMessages (errors ++ errors') parentProperty
  = (ClassValidationPipe.buildErrorMessages errors parentProperty
     ++ ClassValidationPipe.buildErrorMessages errors' parentProperty)%list.
Proof.
  destruct parentProperty as [parent | ].
  - unfold ClassValidationPipe.buildErrorMessages.
    assert (Hstep : forall error messages,
               ClassValidationPipe.forEachError (Some parent) messages error
               = (messages ++ ClassValidationPipe.forEachError (Some parent) [] error)%list).
    { intros error messages.
      destruct (String.eqb_spec parent "") as [-> | Hne].
      - rewrite (forEachError_flattenError error (Some "") [] messages eq_refl).
        now rewrite (forEachError_flattenError error (Some "") [] [] eq_refl).
      - assert (Hpath : default "" (Some parent) = truthyPath [parent]).
        { unfold truthyPath. simpl. apply String.eqb_neq in Hne. now rewrite Hne. }
        rewrite (forEachError_flattenError error (Some parent) [parent] messages Hpath).
        now rewrite (forEachError_flattenError error (Some parent) [parent] [] Hpath). }
    rewrite fold_left_app.
    rewrite !(fold_forEachError _ (fun error =>
                ClassValidationPipe.forEachError (Some parent) [] error));
      try (apply Forall_forall; intros error _ messages; apply Hstep).
    now rewrite app_nil_l.
  - rewrite !buildErrorMessages_flattenErrors. unfold flattenErrors.
    apply flat_map_app.
Qed.

Lemma flattenError_segments (error : ValidationError) :
  forall ancestors : list string,
    flattenError truthyPath ancestors error
    = map segmentOf (constrainedBelow ancestors error).
Proof.
  induction error as [property' constraints' children' IH]
    using ValidationError_children_ind.
  intros ancestors. cbn [flattenError constrainedBelow].
  rewrite map_app. f_equal.
  - now destruct constraints'.
  - induction IH as [ | child children' Hchild _ IHchildren]; [reflexivity | ].
    simpl. now rewrite map_app, Hchild, IHchildren.
Qed.

Lemma constrainedBelow_length (error : ValidationError) :
  forall ancestors : list string,
    length (constrainedBelow ancestors error) = constrained error.
Proof.
  induction error as [property' constraints' children' IH]
    using ValidationError_children_ind.
  intros ancestors. cbn [constrainedBelow constrained].
  rewrite length_app. f_equal.
  - now destruct constraints'.
  - induction IH as [ | child children' Hchild _ IHchildren]; [reflexivity | ].
    simpl. now rewrite length_app, Hchild, IHchildren.
Qed.

(** X13: [buildErrorMessages] gives exactly one message for each violation of
    the tree that carries constraints, at any depth, and none for the others:
    its result is the list of those violations, depth-first and a parent
    before its children, each replaced by its own message, the path of the
    violation, ": ", and its constraint messages joined with ", ".  So there
    are as many messages as violations that carry constraints, and the
    messages of a list of violations are those of its parts, in order. *)
Theorem every_constrained_violation_is_reported
    (errors errors' : list ValidationError) (parentProperty : option string) :
  ClassValidationPipe.buildErrorMessages errors None
  = map segmentOf (constrainedViolations errors)
  /\ length (constrainedViolations errors) = constrainedCount errors
  /\ length (ClassValidationPipe.buildErrorMessages errors parentProperty)
     = constrainedCount errors
  /\ ClassValidationPipe.buildErrorMessages (errors ++ errors') parentProperty
     = (ClassValidationPipe.buildErrorMessages errors parentProperty
        ++ ClassValidationPipe.buildErrorMessages errors' parentProperty)%list.
Proof.
  split; [ | split; [ | split]].
  - rewrite buildErrorMessages_flattenErrors.
    unfold flattenErrors, constrainedViolations.
    induction errors as [ | error errors IH]; [reflexivity | ].
    simpl. now rewrite map_app, flattenError_segments, IH.
  - unfold constrainedViolations, constrainedCount.
    induction errors as [ | error errors IH]; [reflexivity | ].
    simpl. now rewrite length_app, constrainedBelow_length, IH.
  - apply buildErrorMessages_length.
  - apply buildErrorMessages_app.
Qed.

Example constrainedViolations_example :
  constrainedViolations
    [mkValidationError "" None
       [mkValidationError "x" (Some [("isString", "x must be a string")]) []];
     mkValidationError "name" (Some [("minLength", "too short"); ("isAlpha", "letters only")])
       [mkValidationError "first" (Some []) []]]
  = [([""; "x"], [("isString", "x must be a string")]);
     (["name"], [("minLength", "too short"); ("isAlpha", "letters only")]);
     (["name"; "first"], [])]
  /\ map segmentOf
       [([""; "x"], [("isString", "x must be a string")]);
        (["name"], [("minLength", "too short"); ("isAlpha", "letters only")]);
        (["name"; "first"], [])]
     = ["x: x must be a string"; "name: too short, letters only"; "name.first: "].
Proof. split; reflexivity. Qed.

(** X14: when the validation reports violations of which none carries
    constraints, the class pipes still fail, and the message of the
    [BadRequestException] is the empty string. *)
Theorem unconstrained_violations_give_empty_message
    (validatorOptions transformOptions : gmap string JSValue)
    (value : unknown) (v : JSValue) (metadata : ArgumentMetadata)
    (metatype' : Constructor) (host : Host) (object : JSValue)
    (errors : list ValidationError) :
  resolved value = Some v ->
  isNullish v = false ->
  metatype metadata = Some metatype' ->
  ClassValidationPipe.toValidate metatype' = true ->
  plainToInstance host metatype' v transformOptions = Return object ->
  validate host object validatorOptions = Fulfilled errors ->
  errors <> [] ->
  constrainedCount errors = 0%nat ->
  snd (ClassValidationPipe.transform
         (ClassValidationPipe.mkPipe validatorOptions transformOptions)
         value metadata host)
  = Rejected (BadRequestException "")
  /\ snd (ClassValidatorPipe.transform
            (ClassValidatorPipe.mkPipe validatorOptions transformOptions)
            value metadata host)
     = Rejected (BadRequestException "").
Proof.
  intros Hres Hnull Hmt Hval Hinstance Herrors Hne Hcount.
  rewrite class_pipes_same_fields.
  rewrite (class_transform_validated _ _ _ _ _ _ Hres Hnull Hmt Hval). simpl.
  rewrite Hinstance, Herrors. simpl.
  destruct errors as [ | error errors]; [contradiction | ].
  pose proof (buildErrorMessages_length (error :: errors) None) as Hlength.
  rewrite Hcount in Hlength.
  destruct (ClassValidationPipe.buildErrorMessages (error :: errors) None);
    [split; reflexivity | discriminate].
Qed.

Lemma unconstrained_violations_give_empty_message_witness :
  snd (ClassValidationPipe.transform (ClassValidationPipe.constructor None None)
         (NotPromise plainObject) (bodyOf (Class "CreateUserDto"))
         (reportingHost unconstrainedViolations))
  = Rejected (BadRequestException "")
  /\ snd (ClassValidatorPipe.transform (ClassValidatorPipe.constructor None None)
            (NotPromise plainObject) (bodyOf (Class "CreateUserDto"))
            (reportingHost unconstrainedViolations))
     = Rejected (BadRequestException "").
Proof.
  apply (unconstrained_violations_give_empty_message _ _
           (NotPromise plainObject) plainObject
           (bodyOf (Class "CreateUserDto")) (Class "CreateUserDto")
           (reportingHost unconstrainedViolations) plainObject unconstrainedViolations);
    try reflexivity.
  discriminate.
Defined.

(** ** The two stages in sequence *)

Lemma primitive_pipe_makes_no_call
    (pp : PrimitiveValidationPipe.pipe) (value : unknown)
    (metadata : ArgumentMetadata) (host : Host) :
  fst (PrimitiveValidationPipe.transform pp value metadata host) = [].
Proof.
  destruct (resolved value) as [v | ] eqn:Hres.
  - destruct (isNullish v) eqn:Hnull.
    { now rewrite (primitive_transform_nullish _ _ _ _ _ Hres Hnull). }
    destruct (metatype metadata) as [mt | ] eqn:Hmt.
    + now rewrite (primitive_transform_typed _ _ _ _ _ _ Hres Hnull Hmt).
    + now rewrite (primitive_transform_untyped _ _ _ _ _ Hres Hmt).
  - destruct value as [v | [v | reason | ]]; try discriminate; reflexivity.
Qed.

Lemma toValidate_no_switch (metatype' : Constructor) :
  ClassValidationPipe.toValidate metatype' = true -> switchOf metatype' = None.
Proof. destruct metatype'; simpl; intros H; try discriminate; reflexivity. Qed.

Lemma class_transform_of_resolved
    (cp : ClassValidationPipe.pipe) (value : unknown) (v : JSValue)
    (metadata : ArgumentMetadata) (host : Host) :
  resolved value = Some v ->
  ClassValidationPipe.transform cp value metadata host
  = ClassValidationPipe.transform cp (NotPromise v) metadata host.
Proof.
  intros Hres. unfold ClassValidationPipe.transform.
  rewrite (bind_resolved _ _ _ _ Hres).
  now rewrite (bind_resolved (NotPromise v) v _ host eq_refl).
Qed.

(** X15: the two stages never both act on an argument.  Passing the result of
    the primitive pipe to a class pipe, with the same descriptor, is the class
    pipe alone when the metatype is a class to validate, and the primitive
    pipe alone otherwise: same calls, same value or same failure. *)
Theorem stages_in_sequence
    (pp : PrimitiveValidationPipe.pipe) (cp : ClassValidationPipe.pipe)
    (value : unknown) (metadata : ArgumentMetadata) (host : Host) :
  bind (PrimitiveValidationPipe.transform pp value metadata)
       (fun coerced => ClassValidationPipe.transform cp (NotPromise coerced) metadata)
       host
  = match metatype metadata with
    | Some metatype' =>
        if ClassValidationPipe.toValidate metatype'
        then ClassValidationPipe.transform cp value metadata host
        else PrimitiveValidationPipe.transform pp value metadata host
    | None => PrimitiveValidationPipe.transform pp value metadata host
    end.
Proof.
  destruct (resolved value) as [v | ] eqn:Hres.
  - destruct (metatype metadata) as [mt | ] eqn:Hmt.
    + destruct (ClassValidationPipe.toValidate mt) eqn:Hval.
      * unfold bind at 1.
        rewrite (primitive_transform_passthrough _ _ _ _ _ _ Hres Hmt)
          by now rewrite (toValidate_no_switch _ Hval).
        rewrite (class_transform_of_resolved _ _ _ _ _ Hres).
        now destruct (ClassValidationPipe.transform cp (NotPromise v) metadata host).
      * unfold bind at 1.
        pose proof (primitive_pipe_makes_no_call pp value metadata host) as Hcalls.
        destruct (PrimitiveValidationPipe.transform pp value metadata host)
          as [calls [coerced | reason | ]]; simpl in Hcalls; subst calls;
          try reflexivity.
        unfold ClassValidationPipe.transform.
        rewrite (bind_resolved (NotPromise coerced) coerced _ host eq_refl).
        rewrite Hmt, Hval. reflexivity.
    + unfold bind at 1.
      rewrite (primitive_transform_untyped _ _ _ _ _ Hres Hmt).
      unfold ClassValidationPipe.transform.
      rewrite (bind_resolved (NotPromise v) v _ host eq_refl), Hmt. reflexivity.
  - destruct value as [v | [v | reason | ]]; try discriminate;
      destruct (metatype metadata) as [mt | ];
      try destruct (ClassValidationPipe.toValidate mt); reflexivity.
Qed.

(** ** White space around a number *)

Lemma trimStart_not_white (c : ascii) (s : string) :
  JSString.isWhiteSpace c = false -> JSString.trimStart (String c s) = String c s.
Proof. intros H. simpl. now rewrite H. Qed.

Lemma trimEnd_not_white (c : ascii) (s : string) :
  JSString.isWhiteSpace c = false ->
  JSString.trimEnd (String c s) = String c (JSString.trimEnd s).
Proof. intros H. simpl. rewrite H. now destruct (JSString.trimEnd s). Qed.

Lemma trimStart_head (s : string) (c : ascii) (t : string) :
  JSString.trimStart s = String c t -> JSString.isWhiteSpace c = false.
Proof.
  induction s as [ | x s IH]; simpl; [discriminate | ].
  destruct (JSString.isWhiteSpace x) eqn:Hx; [exact IH | ].
  intros H. inversion H. now subst.
Qed.

Lemma trimEnd_idempotent (s : string) :
  JSString.trimEnd (JSString.trimEnd s) = JSString.trimEnd s.
Proof.
  induction s as [ | c s IH]; [reflexivity | ].
  simpl. destruct (JSString.trimEnd s) as [ | d t] eqn:Hend.
  - destruct (JSString.isWhiteSpace c) eqn:Hc; [reflexivity | ].
    simpl. now rewrite Hc.
  - change (JSString.trimEnd (String c (String d t)))
      with (match JSString.trimEnd (String d t) with
            | EmptyString =>
                if JSString.isWhiteSpace c then EmptyString else String c EmptyString
            | kept => String c kept
            end).
    now rewrite IH.
Qed.

Lemma trim_idempotent (s : string) :
  JSString.trim (JSString.trim s) = JSString.trim s.
Proof.
  unfold JSString.trim.
  destruct (JSString.trimStart s) as [ | c t] eqn:Hstart; [reflexivity | ].
  pose proof (trimStart_head _ _ _ Hstart) as Hc.
  rewrite (trimEnd_not_white _ _ Hc), (trimStart_not_white _ _ Hc).
  rewrite <- (trimEnd_not_white _ _ Hc). apply trimEnd_idempotent.
Qed.

Lemma StringToNumber_trim (s : string) :
  JSNumber.StringToNumber (JSString.trim s) = JSNumber.StringToNumber s.
Proof. unfold JSNumber.StringToNumber. now rewrite trim_idempotent. Qed.

(** X16: the [Number] target ignores the white space around a text: a text
    and its trimmed form are accepted alike and give the same number, and a
    text of white space only is accepted as 0.  (On a failure the message
    quotes the text as it was received.) *)
Theorem number_target_ignores_white_space
    (pp : PrimitiveValidationPipe.pipe) (s : string)
    (metadata : ArgumentMetadata) (host : Host) :
  metatype metadata = Some NumberConstructor ->
  ToBoolean (getProperty (PrimitiveValidationPipe.options pp) "transformNumber") = true ->
  (forall result,
      PrimitiveValidationPipe.transform pp (NotPromise (VString s)) metadata host
      = ([], Fulfilled result)
      <-> PrimitiveValidationPipe.transform pp (NotPromise (VString (JSString.trim s)))
            metadata host
          = ([], Fulfilled result))
  /\ (JSString.trim s = "" ->
      PrimitiveValidationPipe.transform pp (NotPromise (VString s)) metadata host
      = ([], Fulfilled (VNumber JSNumber.zero))).
Proof.
  intros Hmt Henabled.
  rewrite (number_coercion_of_text pp (NotPromise (VString s)) s
             metadata host Hmt Henabled eq_refl).
  rewrite (number_coercion_of_text pp (NotPromise (VString (JSString.trim s)))
             (JSString.trim s) metadata host Hmt Henabled eq_refl).
  rewrite StringToNumber_trim. split.
  - intros result.
    destruct (JSNumber.isNaN (JSNumber.StringToNumber s)); split; intros H;
      try discriminate; exact H.
  - intros Hwhite. now rewrite (StringToNumber_white_space _ Hwhite).
Qed.

Lemma number_target_ignores_white_space_witness :
  PrimitiveValidationPipe.transform (PrimitiveValidationPipe.constructor None)
    (NotPromise (VString " 42 ")) (paramOf NumberConstructor) acceptingHost
  = ([], Fulfilled (VNumber (JSNumber.of_Z 42))).
Proof.
  apply (proj1 (number_target_ignores_white_space
                  (PrimitiveValidationPipe.constructor None) " 42 "
                  (paramOf NumberConstructor) acceptingHost eq_refl eq_refl)).
  reflexivity.
Defined.

(** ** The argument as a promise *)

(** X17: the three pipes await their argument first.  A promise fulfilled
    with a value has exactly the outcome of that value; a rejected promise
    fails with the [BadRequestException] "Invalid request data" whatever the
    reason, even a [BadRequestException] of its own, and whatever the
    descriptor, even one that declares no metatype; no capability is called
    for it. *)
Theorem argument_is_resolved_first
    (pp : PrimitiveValidationPipe.pipe) (cp : ClassValidationPipe.pipe)
    (cp' : ClassValidatorPipe.pipe) (metadata : ArgumentMetadata) (host : Host) :
  (forall v,
      PrimitiveValidationPipe.transform pp (IsPromise (Fulfilled v)) metadata host
      = PrimitiveValidationPipe.transform pp (NotPromise v) metadata host
      /\ ClassValidationPipe.transform cp (IsPromise (Fulfilled v)) metadata host
         = ClassValidationPipe.transform cp (NotPromise v) metadata host
      /\ ClassValidatorPipe.transform cp' (IsPromise (Fulfilled v)) metadata host
         = ClassValidatorPipe.transform cp' (NotPromise v) metadata host)
  /\ (forall reason,
         PrimitiveValidationPipe.transform pp (IsPromise (Rejected reason)) metadata host
         = ([], Rejected (BadRequestException "Invalid request data"))
         /\ ClassValidationPipe.transform cp (IsPromise (Rejected reason)) metadata host
            = ([], Rejected (BadRequestException "Invalid request data"))
         /\ ClassValidatorPipe.transform cp' (IsPromise (Rejected reason)) metadata host
            = ([], Rejected (BadRequestException "Invalid request data"))).
Proof.
  split.
  - intros v. split; [ | split].
    + unfold PrimitiveValidationPipe.transform.
      now rewrite (bind_resolved (IsPromise (Fulfilled v)) v _ host eq_refl),
        (bind_resolved (NotPromise v) v _ host eq_refl).
    + exact (class_transform_of_resolved cp (IsPromise (Fulfilled v)) v metadata host
               eq_refl).
    + destruct cp' as [vo to]. rewrite !class_pipes_same_fields.
      exact (class_transform_of_resolved _ (IsPromise (Fulfilled v)) v metadata host
               eq_refl).
  - intros reason. split; [ | split]; reflexivity.
Qed.

(** ** The options objects in the store *)

Lemma contents_alloc_old (h : Store.heap) (o : gmap string JSValue) (l : Store.loc) :
  (l < length h)%nat -> Store.contents (h ++ [o])%list l = Store.contents h l.
Proof.
  intros Hl. unfold Store.contents, Store.deref. cbn [snd].
  now rewrite lookup_app_l.
Qed.

Lemma contents_alloc_new (h : Store.heap) (o : gmap string JSValue) :
  Store.contents (h ++ [o])%list (length h) = o.
Proof.
  unfold Store.contents, Store.deref. cbn [snd].
  now rewrite list_lookup_middle.
Qed.

Lemma contents_perform (writes : list Store.write) (l : Store.loc) :
  forall h : Store.heap,
    Forall (fun w => Store.target w <> l) writes ->
    Store.contents (Store.perform writes h) l = Store.contents h l.
Proof.
  induction writes as [ | w writes IH]; intros h Hwrites; [reflexivity | ].
  inversion Hwrites as [ | w' writes' Hw Hrest]; subst.
  change (Store.perform (w :: writes) h)
    with (Store.perform writes
            (alter (insert (snd (fst w)) (snd w)) (Store.target w) h)).
  rewrite (IH _ Hrest). unfold Store.contents, Store.deref. cbn [snd].
  now rewrite list_lookup_alter_ne.
Qed.

(** The store-level [transform]s write nothing, and read the objects of the
    instance only. *)
Lemma primitiveTransform_reads
    (this : Store.primitivePipe) (value : unknown) (metadata : ArgumentMetadata)
    (host : Host) (h : Store.heap) :
  Store.primitiveTransform this value metadata host h
  = (h, PrimitiveValidationPipe.transform
          (PrimitiveValidationPipe.mkPipe (Store.contents h (Store.options this)))
          value metadata host).
Proof. reflexivity. Qed.

Lemma classTransform_reads
    (this : Store.classPipe) (value : unknown) (metadata : ArgumentMetadata)
    (host : Host) (h : Store.heap) :
  Store.classTransform this value metadata host h
  = (h, ClassValidationPipe.transform
          (ClassValidationPipe.mkPipe
             (Store.contents h (Store.validatorOptions this))
             (Store.contents h (Store.transformOptions this)))
          value metadata host).
Proof. reflexivity. Qed.

(** What the constructor of the primitive pipe leaves in the store: the
    instance refers to the caller's object when one is given, and to a new
    object otherwise. *)
Lemma newPrimitivePipe_options
    (h h' : Store.heap) (argument : option Store.loc) (pp : Store.primitivePipe) :
  Store.newPrimitivePipe argument h = (h', pp) ->
  Store.contents h' (Store.options pp)
  = PrimitiveValidationPipe.options
      (PrimitiveValidationPipe.constructor (givenOptions h argument))
  /\ match argument with
     | Some l => Store.options pp = l /\ h' = h
     | None => Store.options pp = length h
     end.
Proof.
  destruct argument as [l | ]; intros H; inversion H; subst; simpl.
  - split; [reflexivity | split; reflexivity].
  - split; [apply contents_alloc_new | reflexivity].
Qed.

(** What the constructor of the class pipe leaves in the store: two objects
    that did not exist before, holding the merge of the properties the
    arguments had when it ran. *)
Lemma newClassPipe_options
    (h h' : Store.heap) (validatorOptions transformOptions : option Store.loc)
    (cp : Store.classPipe) :
  Store.allocated h validatorOptions ->
  Store.allocated h transformOptions ->
  Store.newClassPipe validatorOptions transformOptions h = (h', cp) ->
  Store.contents h' (Store.validatorOptions cp)
  = ClassValidationPipe.validatorOptions
      (ClassValidationPipe.constructor (givenOptions h validatorOptions)
                                       (givenOptions h transformOptions))
  /\ Store.contents h' (Store.transformOptions cp)
     = ClassValidationPipe.transformOptions
         (ClassValidationPipe.constructor (givenOptions h validatorOptions)
                                          (givenOptions h transformOptions))
  /\ (length h <= Store.validatorOptions cp)%nat
  /\ (length h <= Store.transformOptions cp)%nat.
Proof.
  intros Hv Ht H.
  destruct validatorOptions as [lv | ], transformOptions as [lt | ];
    simpl in Hv, Ht;
    unfold Store.newClassPipe, Store.andThen, Store.orEmptyObject, Store.alloc,
      Store.deref, Store.pure in H;
    cbv beta iota zeta in H; inversion H; subst; clear H;
    cbn [Store.validatorOptions Store.transformOptions].
  all: repeat match goal with
         | |- context [default ∅ (?store !! ?l)] =>
             change (default ∅ (store !! l)) with (Store.contents store l)
         end.
  all: repeat first
         [ rewrite contents_alloc_new
         | rewrite contents_alloc_old by (rewrite ?length_app; simpl; lia) ].
  all: rewrite ?length_app; simpl; repeat split; lia.
Qed.

(** C9, amended: the outcome of a run of [transform] is determined by the
    argument, the descriptor, the answers of the capabilities to the calls
    made, and the options objects of the instance as they are at the time of
    the run; [transform] writes nothing to the store.  A class pipe reads two
    objects its constructor created from the options it was given, so the
    outcome is that of the policy held by those options when the pipe was
    built, whatever is written afterwards to the objects that existed then.
    The primitive pipe reads the very object it was given, so the outcome is
    that of the construction-time policy as long as that object is not written
    to, and follows the object otherwise.  Two runs on new instances
    therefore agree under these conditions. *)
Theorem outcome_follows_the_options_objects
    (h h' h'' : Store.heap) (options validatorOptions transformOptions : option Store.loc)
    (pp : Store.primitivePipe) (cp : Store.classPipe)
    (writes : list Store.write)
    (value : unknown) (metadata : ArgumentMetadata) (host1 host2 : Host) :
  Store.allocated h validatorOptions ->
  Store.allocated h transformOptions ->
  Store.newPrimitivePipe options h = (h', pp) ->
  Store.newClassPipe validatorOptions transformOptions h = (h'', cp) ->
  (forall c,
      In c (fst (ClassValidationPipe.transform
                   (ClassValidationPipe.constructor
                      (givenOptions h validatorOptions)
                      (givenOptions h transformOptions))
                   value metadata host1)) ->
      sameAnswer host1 host2 c) ->
  (Forall (fun w => (Store.target w < length h)%nat) writes ->
   Store.classTransform cp value metadata host1 (Store.perform writes h'')
   = (Store.perform writes h'',
      ClassValidationPipe.transform
        (ClassValidationPipe.constructor (givenOptions h validatorOptions)
                                         (givenOptions h transformOptions))
        value metadata host2))
  /\ Store.primitiveTransform pp value metadata host1 (Store.perform writes h')
     = (Store.perform writes h',
        PrimitiveValidationPipe.transform
          (PrimitiveValidationPipe.mkPipe
             (Store.contents (Store.perform writes h') (Store.options pp)))
          value metadata host2)
  /\ (Forall (fun w => Store.target w <> Store.options pp) writes ->
      Store.primitiveTransform pp value metadata host1 (Store.perform writes h')
      = (Store.perform writes h',
         PrimitiveValidationPipe.transform
           (PrimitiveValidationPipe.constructor (givenOptions h options))
           value metadata host2)).
Proof.
  intros Hv Ht Hprimitive Hclass Hsame.
  destruct (newClassPipe_options _ _ _ _ _ Hv Ht Hclass)
    as [Hvalidator [Htransform [Hfresh Hfresh']]].
  destruct (newPrimitivePipe_options _ _ _ _ Hprimitive) as [Hoptions _].
  split; [ | split].
  - intros Hwrites. rewrite classTransform_reads.
    rewrite !contents_perform, Hvalidator, Htransform;
      try (eapply Forall_impl; [exact Hwrites | cbv beta; intros w Hw; lia]).
    f_equal. now apply class_transform_same_answers.
  - rewrite primitiveTransform_reads. f_equal.
    apply primitive_transform_host_independent.
  - intros Hwrites. rewrite primitiveTransform_reads.
    rewrite (contents_perform _ _ _ Hwrites), Hoptions. f_equal.
    apply primitive_transform_host_independent.
Qed.

Lemma outcome_follows_the_options_objects_witness :
  Store.classTransform
    (snd (Store.newClassPipe (Some 0%nat) None callerStore))
    (NotPromise plainObject) (bodyOf (Class "CreateUserDto"))
    (reportingHost userViolations)
    (Store.perform [(0%nat, "whitelist", VBoolean false)]
       (fst (Store.newClassPipe (Some 0%nat) None callerStore)))
  = (Store.perform [(0%nat, "whitelist", VBoolean false)]
       (fst (Store.newClassPipe (Some 0%nat) None callerStore)),
     ClassValidationPipe.transform
       (ClassValidationPipe.constructor (givenOptions callerStore (Some 0%nat))
                                        (givenOptions callerStore None))
       (NotPromise plainObject) (bodyOf (Class "CreateUserDto"))
       (strictHost userViolations)).
Proof.
  refine (proj1 (outcome_follows_the_options_objects
                   callerStore
                   (fst (Store.newPrimitivePipe (Some 0%nat) callerStore))
                   (fst (Store.newClassPipe (Some 0%nat) None callerStore))
                   (Some 0%nat) (Some 0%nat) None
                   (snd (Store.newPrimitivePipe (Some 0%nat) callerStore))
                   (snd (Store.newClassPipe (Some 0%nat) None callerStore))
                   [(0%nat, "whitelist", VBoolean false)]
                   (NotPromise plainObject) (bodyOf (Class "CreateUserDto"))
                   (reportingHost userViolations) (strictHost userViolations)
                   _ I eq_refl eq_refl _) _).
  - simpl. lia.
  - intros c [<- | [<- | []]]; reflexivity.
  - repeat constructor.
Defined.

(** C9 as stated fails for the primitive pipe: two new instances built on
    options that turn the number switch on, the same argument and the same
    descriptor; in one run the options object is written to after the pipe is
    built, and the outcomes differ. *)
Lemma written_options_change_the_outcome_counterexample :
  Store.contents callerStore 0%nat = PrimitiveValidationPipe.defaultOptions
  /\ snd (Store.primitiveTransform
            (snd (Store.newPrimitivePipe (Some 0%nat) callerStore))
            (NotPromise (VString "42")) (paramOf NumberConstructor) acceptingHost
            (Store.perform []
               (fst (Store.newPrimitivePipe (Some 0%nat) callerStore))))
     = ([], Fulfilled (VNumber (JSNumber.of_Z 42)))
  /\ snd (Store.primitiveTransform
            (snd (Store.newPrimitivePipe (Some 0%nat) callerStore))
            (NotPromise (VString "42")) (paramOf NumberConstructor) acceptingHost
            (Store.perform [(0%nat, "transformNumber", VBoolean false)]
               (fst (Store.newPrimitivePipe (Some 0%nat) callerStore))))
     = ([], Fulfilled (VString "42")).
Proof. repeat split; vm_compute; reflexivity. Qed.
